(** * Fitness-tracker workout calculator: a Rocq model of [homework.py]

    The module computes distance, mean speed and burnt calories for three
    kinds of workout and renders a one-line summary.  The model follows the
    Python source definition by definition:

    - Python numbers are [pyval]: unbounded [int]s ([Z]) and binary64
      [float]s (Rocq's primitive floats, which are IEEE 754 binary64 with
      round-to-nearest-even, as CPython's are);
    - a raised exception is the [Raise] outcome of the [result] monad, and
      operands are evaluated left to right as Python does;
    - the sensor data are numbers; an instance holds the attributes its
      [__init__] assigned, a class constant or a method is looked up along
      the method resolution order of the instance's class;
    - the dispatch table of [read_package] is a dictionary ([gmap]);
    - [str] values are UTF-8 byte strings, the standard output is the list
      of the lines printed. *)

From Stdlib Require Import ZArith Lia List Bool Ascii String Floats DecimalString.
From stdpp Require Import gmap strings.

Set Warnings "-inexact-float".
Local Open Scope Z_scope.

(** ** Exceptions and the result monad *)

Inductive exn : Type :=
| ZeroDivisionError
| OverflowError
| TypeError
| AttributeError
| NotImplementedError
| ValueError (msg : string).

Inductive result (A : Type) : Type :=
| Ok (a : A)
| Raise (e : exn).

Arguments Ok {A} a.
Arguments Raise {A} e.

Definition bind {A B : Type} (m : result A) (k : A -> result B) : result B :=
  match m with
  | Ok a => k a
  | Raise e => Raise e
  end.

Declare Scope result_scope.
Delimit Scope result_scope with result.
Notation "'let!' x ':=' m 'in' k" := (bind m (fun x => k))
  (at level 10, x name, m at level 100, k at level 200) : result_scope.
Local Open Scope result_scope.

(** ** Python numbers *)

Inductive pyval : Type :=
| PInt (n : Z)
| PFloat (x : float).

(** *** binary64 helpers that C's [libm] provides *)

Module Float64.

(** The integer of sign [s] and magnitude [m]. *)
Definition signed (s : bool) (m : Z) : Z := if s then - m else m.

(** [fmod x y]: the remainder of the truncated quotient; it is exactly
    representable and carries the sign of [x]. *)
Definition SFfmod (x y : spec_float) : spec_float :=
  match x, y with
  | S754_nan, _ | _, S754_nan => S754_nan
  | S754_infinity _, _ => S754_nan
  | _, S754_zero _ => S754_nan
  | _, S754_infinity _ => x
  | S754_zero _, _ => x
  | S754_finite sx mx ex, S754_finite _ my ey =>
      let e := Z.min ex ey in
      let r := Z.rem (Zpos mx * 2 ^ (ex - e)) (Zpos my * 2 ^ (ey - e)) in
      binary_normalize prec emax (signed sx r) e sx
  end.

Definition fmod (x y : float) : float := SF2Prim (SFfmod (Prim2SF x) (Prim2SF y)).

(** [floor x]: the largest integral float not above [x]. *)
Definition SFfloor (x : spec_float) : spec_float :=
  match x with
  | S754_finite s m e =>
      if 0 <=? e then x
      else binary_normalize prec emax (signed s (Zpos m) / 2 ^ (- e)) 0 s
  | _ => x
  end.

Definition floor (x : float) : float := SF2Prim (SFfloor (Prim2SF x)).

(** [copysign 0.0 x] *)
Definition zero_with_sign_of (x : float) : float :=
  if get_sign x then neg_zero else zero.

(** C truth value of a double: everything but the two zeros, NaN included. *)
Definition truthy (x : float) : bool := negb (x =? 0)%float.

(** The correctly rounded positive power [x ^ k] of a positive finite
    float, [k > 0]: the exact value m^k * 2^(e*k) rounded once.  C's
    [pow] is taken to be correctly rounded on integral exponents. *)
Definition SFpow_pos (m : positive) (e : Z) (k : Z) : spec_float :=
  binary_normalize prec emax (Zpos m ^ k) (e * k) false.

(** Integer value of a finite float that holds an integer. *)
Definition SFto_Z (x : spec_float) : Z :=
  match x with
  | S754_finite s m e => signed s (if 0 <=? e then Zpos m * 2 ^ e else Zpos m / 2 ^ (- e))
  | _ => 0
  end.

End Float64.

(** *** Conversions and arithmetic of [int] and [float] objects *)

(** [float(n)]: the nearest double, ties to even; [OverflowError] when it
    would be infinite. *)
Definition float_of_int (n : Z) : result float :=
  let x := SF2Prim (binary_normalize prec emax n 0 false) in
  if is_infinity x then Raise OverflowError else Ok x.

Definition as_float (v : pyval) : result float :=
  match v with
  | PInt n => float_of_int n
  | PFloat x => Ok x
  end.

Definition py_add (v w : pyval) : result pyval :=
  match v, w with
  | PInt a, PInt b => Ok (PInt (a + b))
  | _, _ => let! x := as_float v in let! y := as_float w in Ok (PFloat (x + y))
  end.

Definition py_sub (v w : pyval) : result pyval :=
  match v, w with
  | PInt a, PInt b => Ok (PInt (a - b))
  | _, _ => let! x := as_float v in let! y := as_float w in Ok (PFloat (x - y))
  end.

Definition py_mul (v w : pyval) : result pyval :=
  match v, w with
  | PInt a, PInt b => Ok (PInt (a * b))
  | _, _ => let! x := as_float v in let! y := as_float w in Ok (PFloat (x * y))
  end.

(** [int / int] is the correctly rounded quotient of the two integers
    (not the quotient of their conversions). *)
Definition int_true_divide (a b : Z) : result pyval :=
  if b =? 0 then Raise ZeroDivisionError
  else
    let negate := xorb (a <? 0) (b <? 0) in
    match a with
    | Z0 => Ok (PFloat (if negate then neg_zero else zero))
    | _ =>
        let q := SF2Prim (SFdiv prec emax
                            (S754_finite (a <? 0) (Z.to_pos (Z.abs a)) 0)
                            (S754_finite (b <? 0) (Z.to_pos (Z.abs b)) 0)) in
        if is_infinity q then Raise OverflowError else Ok (PFloat q)
    end.

Definition py_truediv (v w : pyval) : result pyval :=
  match v, w with
  | PInt a, PInt b => int_true_divide a b
  | _, _ =>
      let! x := as_float v in let! y := as_float w in
      if (y =? 0)%float then Raise ZeroDivisionError else Ok (PFloat (x / y))
  end.

(** CPython's [_float_div_mod], quotient part. *)
Definition float_floor_div (vx wx : float) : float :=
  let mod_ := Float64.fmod vx wx in
  let div := ((vx - mod_) / wx)%float in
  let div :=
    if Float64.truthy mod_
    then if xorb (wx <? 0)%float (mod_ <? 0)%float then (div - 1)%float else div
    else div in
  if Float64.truthy div
  then
    let floordiv := Float64.floor div in
    if (0.5 <? div - floordiv)%float then (floordiv + 1)%float else floordiv
  else Float64.zero_with_sign_of (vx / wx)%float.

Definition py_floordiv (v w : pyval) : result pyval :=
  match v, w with
  | PInt a, PInt b => if b =? 0 then Raise ZeroDivisionError else Ok (PInt (a / b))
  | _, _ =>
      let! x := as_float v in let! y := as_float w in
      if (y =? 0)%float then Raise ZeroDivisionError else Ok (PFloat (float_floor_div x y))
  end.

(** CPython's [float_pow] for an exponent that is a non-negative [int]
    (the source raises to the constant 2 only).  [k] is the integer the
    exponent becomes once converted to a double. *)
Definition float_pow (iv : float) (k : Z) : result float :=
  if k =? 0 then Ok 1%float
  else
    match Prim2SF iv with
    | S754_nan => Ok iv
    | S754_infinity _ => Ok (if Z.odd k then iv else abs iv)
    | S754_zero _ => Ok (if Z.odd k then iv else 0%float)
    | S754_finite s m e =>
        let negate_result := s && Z.odd k in
        let ix := SF2Prim (Float64.SFpow_pos m e k) in
        if is_infinity ix then Raise OverflowError
        else Ok (if negate_result then (- ix)%float else ix)
    end.

Definition py_pow (v : pyval) (n : N) : result pyval :=
  match v with
  | PInt a => Ok (PInt (a ^ Z.of_N n))
  | PFloat x =>
      let! iw := float_of_int (Z.of_N n) in
      let! r := float_pow x (Float64.SFto_Z (Prim2SF iw)) in
      Ok (PFloat r)
  end.

(** Python's binary operators on already evaluated operands; the left
    operand is evaluated first, then the right one, then the operation. *)
Definition lift2 (op : pyval -> pyval -> result pyval) (a b : result pyval)
  : result pyval :=
  let! x := a in let! y := b in op x y.

Definition lift_pow (a : result pyval) (n : result N) : result pyval :=
  let! x := a in let! k := n in py_pow x k.

Declare Scope py_scope.
Delimit Scope py_scope with py.
Notation "a + b" := (lift2 py_add a b) : py_scope.
Notation "a - b" := (lift2 py_sub a b) : py_scope.
Notation "a * b" := (lift2 py_mul a b) : py_scope.
Notation "a / b" := (lift2 py_truediv a b) : py_scope.
Notation "a // b" := (lift2 py_floordiv a b)
  (at level 40, left associativity) : py_scope.
Notation "a ** n" := (lift_pow a n)
  (at level 30, right associativity) : py_scope.

(** Literals and already computed values inside an expression. *)
Definition int (n : Z) : result pyval := Ok (PInt n).
Definition flt (x : float) : result pyval := Ok (PFloat x).
Definition val (v : pyval) : result pyval := Ok v.

(** ** [format(x, '.3f')] *)

Definition digit (n : Z) : ascii := ascii_of_nat (48 + Z.to_nat n).

Definition decimal (n : Z) : string := NilZero.string_of_uint (N.to_uint (Z.to_N n)).

(** Nearest integer to [m * 2^e * 1000], ties to even: the decimal
    conversion is made from the exact binary value. *)
Definition round_half_even_scaled (m : positive) (e : Z) : Z :=
  if 0 <=? e then Zpos m * 1000 * 2 ^ e
  else
    let d := 2 ^ (- e) in
    let q := (Zpos m * 1000) / d in
    let r := (Zpos m * 1000) mod d in
    match 2 * r ?= d with
    | Lt => q
    | Gt => q + 1
    | Eq => if Z.even q then q else q + 1
    end.

(** [q] thousandths printed with three decimals. *)
Definition fixed3 (neg : bool) (q : Z) : string :=
  (if neg then "-" else "") +:+ decimal (q / 1000) +:+ "."
  +:+ String (digit (q / 100 mod 10))
        (String (digit (q / 10 mod 10)) (String (digit (q mod 10)) EmptyString)).

Definition float_format_3f (x : float) : string :=
  match Prim2SF x with
  | S754_nan => "nan"
  | S754_infinity s => (if s then "-" else "") +:+ "inf"
  | S754_zero s => fixed3 s 0
  | S754_finite s m e => fixed3 s (round_half_even_scaled m e)
  end.

(** An [int] is converted to [float] before it is printed with [f]. *)
Definition py_format_3f (v : pyval) : result string :=
  let! x := as_float v in Ok (float_format_3f x).

(** ** Module constants *)

Definition SWM : string := "SWM".
Definition RUN : string := "RUN".
Definition WLK : string := "WLK".

(** ** [InfoMessage] *)

Module InfoMessage.

Record t : Type := Build
  { training_type : string;
    duration : pyval;
    distance : pyval;
    speed : pyval;
    calories : pyval }.

(** The class constant [TEXT] with its five replacement fields filled in. *)
Definition TEXT (training_type duration distance speed calories : string) : string :=
  "Тип тренировки: " +:+ training_type +:+ "; "
  +:+ "Длительность: " +:+ duration +:+ " ч.; "
  +:+ "Дистанция: " +:+ distance +:+ " км; "
  +:+ "Ср. скорость: " +:+ speed +:+ " км/ч; "
  +:+ "Потрачено ккал: " +:+ calories +:+ ".".

(** [TEXT.format( **asdict(self))]: the fields are rendered in the order
    in which the template names them. *)
Definition get_message (self : t) : result string :=
  let! duration := py_format_3f (duration self) in
  let! distance := py_format_3f (distance self) in
  let! speed := py_format_3f (speed self) in
  let! calories := py_format_3f (calories self) in
  Ok (TEXT (training_type self) duration distance speed calories).

End InfoMessage.

(** ** The class hierarchy *)

Inductive class : Type := Training | Running | SportsWalking | Swimming.

(** [cls.__name__] *)
Definition class_name (c : class) : string :=
  match c with
  | Training => "Training"
  | Running => "Running"
  | SportsWalking => "SportsWalking"
  | Swimming => "Swimming"
  end.

(** [class Running(Training)], [class SportsWalking(Training)],
    [class Swimming(Training)] *)
Definition bases (c : class) : list class :=
  match c with
  | Training => []
  | Running | SportsWalking | Swimming => [Training]
  end.

(** Method resolution order: the class, then its (single) base. *)
Definition mro (c : class) : list class := c :: bases c.

(** Lookup of a name along the MRO, given which classes define it. *)
Fixpoint first_defined {A : Type} (own : class -> option A) (cs : list class)
  : option A :=
  match cs with
  | [] => None
  | c :: cs' =>
      match own c with
      | Some a => Some a
      | None => first_defined own cs'
      end
  end.

Definition class_getattr {A : Type} (own : class -> option A) (c : class)
  : result A :=
  match first_defined own (mro c) with
  | Some a => Ok a
  | None => Raise AttributeError
  end.

(** An instance: its class and the attributes its [__init__] assigned. *)
Inductive object : Type :=
| NewTraining (action duration weight : pyval)
| NewRunning (action duration weight : pyval)
| NewSportsWalking (action duration weight height : pyval)
| NewSwimming (action duration weight length_pool count_pool : pyval).

Definition class_of (self : object) : class :=
  match self with
  | NewTraining _ _ _ => Training
  | NewRunning _ _ _ => Running
  | NewSportsWalking _ _ _ _ => SportsWalking
  | NewSwimming _ _ _ _ _ => Swimming
  end.

(** *** Instance attributes *)

Definition action (self : object) : result pyval :=
  match self with
  | NewTraining a _ _ | NewRunning a _ _
  | NewSportsWalking a _ _ _ | NewSwimming a _ _ _ _ => Ok a
  end.

Definition duration (self : object) : result pyval :=
  match self with
  | NewTraining _ d _ | NewRunning _ d _
  | NewSportsWalking _ d _ _ | NewSwimming _ d _ _ _ => Ok d
  end.

Definition weight (self : object) : result pyval :=
  match self with
  | NewTraining _ _ w | NewRunning _ _ w
  | NewSportsWalking _ _ w _ | NewSwimming _ _ w _ _ => Ok w
  end.

Definition height (self : object) : result pyval :=
  match self with
  | NewSportsWalking _ _ _ h => Ok h
  | _ => Raise AttributeError
  end.

Definition length_pool (self : object) : result pyval :=
  match self with
  | NewSwimming _ _ _ l _ => Ok l
  | _ => Raise AttributeError
  end.

Definition count_pool (self : object) : result pyval :=
  match self with
  | NewSwimming _ _ _ _ c => Ok c
  | _ => Raise AttributeError
  end.

(** *** Class attributes: which class body assigns which constant *)

Definition own_LEN_STEP (c : class) : option pyval :=
  match c with
  | Training => Some (PFloat 0.65)
  | Swimming => Some (PFloat 1.38)
  | _ => None
  end.

Definition own_M_IN_KM (c : class) : option pyval :=
  match c with Training => Some (PInt 1000) | _ => None end.

Definition own_MINUTES_IN_HOUR (c : class) : option pyval :=
  match c with Training => Some (PInt 60) | _ => None end.

Definition own_RUN_COEFF_CAL_1 (c : class) : option pyval :=
  match c with Running => Some (PInt 18) | _ => None end.

Definition own_RUN_COEFF_CAL_2 (c : class) : option pyval :=
  match c with Running => Some (PInt 20) | _ => None end.

Definition own_WLK_COEFF_CAL_1 (c : class) : option pyval :=
  match c with SportsWalking => Some (PFloat 0.035) | _ => None end.

(** The exponent; an [int] constant, kept as the natural number it is. *)
Definition own_WLK_COEFF_CAL_2 (c : class) : option N :=
  match c with SportsWalking => Some 2%N | _ => None end.

Definition own_WLK_COEFF_CAL_3 (c : class) : option pyval :=
  match c with SportsWalking => Some (PFloat 0.029) | _ => None end.

Definition own_SWM_COEFF_CAL_1 (c : class) : option pyval :=
  match c with Swimming => Some (PFloat 1.1) | _ => None end.

Definition own_SWM_COEFF_CAL_2 (c : class) : option pyval :=
  match c with Swimming => Some (PInt 2) | _ => None end.

(** [self.NAME] for a class constant. *)
Definition LEN_STEP (self : object) := class_getattr own_LEN_STEP (class_of self).
Definition M_IN_KM (self : object) := class_getattr own_M_IN_KM (class_of self).
Definition MINUTES_IN_HOUR (self : object) :=
  class_getattr own_MINUTES_IN_HOUR (class_of self).
Definition RUN_COEFF_CAL_1 (self : object) :=
  class_getattr own_RUN_COEFF_CAL_1 (class_of self).
Definition RUN_COEFF_CAL_2 (self : object) :=
  class_getattr own_RUN_COEFF_CAL_2 (class_of self).
Definition WLK_COEFF_CAL_1 (self : object) :=
  class_getattr own_WLK_COEFF_CAL_1 (class_of self).
Definition WLK_COEFF_CAL_2 (self : object) :=
  class_getattr own_WLK_COEFF_CAL_2 (class_of self).
Definition WLK_COEFF_CAL_3 (self : object) :=
  class_getattr own_WLK_COEFF_CAL_3 (class_of self).
Definition SWM_COEFF_CAL_1 (self : object) :=
  class_getattr own_SWM_COEFF_CAL_1 (class_of self).
Definition SWM_COEFF_CAL_2 (self : object) :=
  class_getattr own_SWM_COEFF_CAL_2 (class_of self).

(** *** Methods

    [self.m()] looks [m] up along the MRO of the instance's class and
    calls what it finds on [self]. *)
Definition call_method {A : Type} (own : class -> option (object -> result A))
  (self : object) : result A :=
  let! m := class_getattr own (class_of self) in m self.

Definition Training_get_distance (self : object) : result pyval :=
  (action self * LEN_STEP self / M_IN_KM self)%py.

Definition own_get_distance (c : class) : option (object -> result pyval) :=
  match c with Training => Some Training_get_distance | _ => None end.

Definition get_distance : object -> result pyval := call_method own_get_distance.

Definition Training_get_mean_speed (self : object) : result pyval :=
  (get_distance self / duration self)%py.

Definition Swimming_get_mean_speed (self : object) : result pyval :=
  (length_pool self * count_pool self / M_IN_KM self / duration self)%py.

Definition own_get_mean_speed (c : class) : option (object -> result pyval) :=
  match c with
  | Training => Some Training_get_mean_speed
  | Swimming => Some Swimming_get_mean_speed
  | _ => None
  end.

Definition get_mean_speed : object -> result pyval := call_method own_get_mean_speed.

Definition Training_get_spent_calories (self : object) : result pyval :=
  Raise NotImplementedError.

Definition Running_get_spent_calories (self : object) : result pyval :=
  ((RUN_COEFF_CAL_1 self * get_mean_speed self
    - RUN_COEFF_CAL_2 self)
   * weight self / M_IN_KM self
   * duration self * MINUTES_IN_HOUR self)%py.

Definition SportsWalking_get_spent_calories (self : object) : result pyval :=
  ((WLK_COEFF_CAL_1 self * weight self
    + (get_mean_speed self ** WLK_COEFF_CAL_2 self
       // height self) * WLK_COEFF_CAL_3 self * weight self)
   * duration self * MINUTES_IN_HOUR self)%py.

Definition Swimming_get_spent_calories (self : object) : result pyval :=
  ((get_mean_speed self + SWM_COEFF_CAL_1 self)
   * SWM_COEFF_CAL_2 self * weight self)%py.

Definition own_get_spent_calories (c : class) : option (object -> result pyval) :=
  match c with
  | Training => Some Training_get_spent_calories
  | Running => Some Running_get_spent_calories
  | SportsWalking => Some SportsWalking_get_spent_calories
  | Swimming => Some Swimming_get_spent_calories
  end.

Definition get_spent_calories : object -> result pyval :=
  call_method own_get_spent_calories.

(** The arguments of the [InfoMessage] constructor are evaluated left to
    right. *)
Definition Training_show_training_info (self : object) : result InfoMessage.t :=
  let training_type := class_name (class_of self) in
  let! duration := duration self in
  let! distance := get_distance self in
  let! speed := get_mean_speed self in
  let! calories := get_spent_calories self in
  Ok (InfoMessage.Build training_type duration distance speed calories).

Definition own_show_training_info (c : class)
  : option (object -> result InfoMessage.t) :=
  match c with Training => Some Training_show_training_info | _ => None end.

Definition show_training_info : object -> result InfoMessage.t :=
  call_method own_show_training_info.

(** ** [read_package] and [main] *)

(** Calling a class on positional arguments: [__init__] binds them in
    order, and a wrong number of them is a [TypeError]. *)
Definition construct (c : class) (data : list pyval) : result object :=
  match c, data with
  | Training, [a; d; w] => Ok (NewTraining a d w)
  | Running, [a; d; w] => Ok (NewRunning a d w)
  | SportsWalking, [a; d; w; h] => Ok (NewSportsWalking a d w h)
  | Swimming, [a; d; w; l; n] => Ok (NewSwimming a d w l n)
  | _, _ => Raise TypeError
  end.

Definition workout_types : gmap string class :=
  {[ SWM := Swimming; RUN := Running; WLK := SportsWalking ]}.

Definition read_package (workout_type : string) (data : list pyval)
  : result object :=
  match workout_types !! workout_type with
  | Some c => construct c data
  | None => Raise (ValueError "Тип тренировки не предусмотрен")
  end.

(** [print] appends one line to the standard output. *)
Definition main (training : object) (stdout : list string)
  : result (list string) :=
  let! info := show_training_info training in
  let! message := InfoMessage.get_message info in
  Ok (stdout ++ [message]).

Definition packages : list (string * list pyval) :=
  [ (SWM, [PInt 720; PInt 1; PInt 80; PInt 25; PInt 40]);
    (RUN, [PInt 15000; PInt 1; PInt 75]);
    (WLK, [PInt 9000; PInt 1; PInt 75; PInt 180]) ].

(** The loop of the script: the first exception ends the run. *)
Fixpoint run (ps : list (string * list pyval)) (stdout : list string)
  : result (list string) :=
  match ps with
  | [] => Ok stdout
  | (workout_type, data) :: ps' =>
      let! training := read_package workout_type data in
      let! stdout' := main training stdout in
      run ps' stdout'
  end.

(** * The formulas of the specification

    Written from the specification's wording, with Python's operators on
    Python's numbers.  [meanSpeedKmh()] and [distanceKm()] are calls, so
    the formulas take them as computations. *)

Module Spec.

Definition step_length_m (kind : class) : pyval :=
  match kind with
  | Swimming => PFloat 1.38
  | _ => PFloat 0.65
  end.

Definition distance_km (actionCount stepLengthM : pyval) : result pyval :=
  (val actionCount * val stepLengthM / int 1000)%py.

Definition mean_speed_kmh (distanceKm : result pyval) (durationHours : pyval)
  : result pyval :=
  (distanceKm / val durationHours)%py.

Definition swimming_mean_speed_kmh (poolLengthM poolLengthCount durationHours : pyval)
  : result pyval :=
  (val poolLengthM * val poolLengthCount / int 1000 / val durationHours)%py.

Definition running_calories (meanSpeedKmh : result pyval)
  (weightKg durationHours : pyval) : result pyval :=
  ((int 18 * meanSpeedKmh - int 20) * val weightKg / int 1000
   * val durationHours * int 60)%py.

Definition walking_calories (meanSpeedKmh : result pyval)
  (weightKg heightCm durationHours : pyval) : result pyval :=
  ((flt 0.035 * val weightKg
    + (meanSpeedKmh ** Ok 2%N // val heightCm) * flt 0.029 * val weightKg)
   * val durationHours * int 60)%py.

Definition swimming_calories (meanSpeedKmh : result pyval) (weightKg : pyval)
  : result pyval :=
  ((meanSpeedKmh + flt 1.1) * int 2 * val weightKg)%py.

(** The invariants of a workout record: a non-negative action count, a
    positive duration and a positive weight. *)
Definition non_negative (v : pyval) : bool :=
  match v with
  | PInt n => 0 <=? n
  | PFloat x => (0 <=? x)%float
  end.

Definition positive (v : pyval) : bool :=
  match v with
  | PInt n => 0 <? n
  | PFloat x => (0 <? x)%float
  end.

Definition negative (v : pyval) : bool :=
  match v with
  | PInt n => n <? 0
  | PFloat x => (x <? 0)%float
  end.

Definition valid_record (self : object) : bool :=
  match action self, duration self, weight self with
  | Ok a, Ok d, Ok w => non_negative a && positive d && positive w
  | _, _, _ => false
  end.

(** Whether [Running(a, 1, 75)] has its calories computed, and negative. *)
Definition burns_negative (a : Z) : bool :=
  match get_spent_calories (NewRunning (PInt a) (PInt 1) (PInt 75)) with
  | Ok calories => negative calories
  | Raise _ => false
  end.

(** A number equal to the integer [z]: the [int] itself or the [float] it
    converts to. *)
Definition number (z : Z) (v : pyval) : Prop :=
  match v with
  | PInt n => n = z
  | PFloat x => float_of_int z = Ok x
  end.

(** A number that has a decimal expansion: neither infinite nor NaN, and
    if an [int], one that converts to [float]. *)
Definition finite_number (v : pyval) : bool :=
  match as_float v with
  | Ok x => is_finite x
  | Raise _ => false
  end.

(** Fixed-point notation with exactly three decimals:
    an optional minus sign, one or more digits, a point, three digits. *)
Definition is_digit (c : ascii) : bool :=
  ((48 <=? nat_of_ascii c) && (nat_of_ascii c <=? 57))%nat.

Fixpoint all_digits (s : string) : bool :=
  match s with
  | EmptyString => true
  | String c s' => is_digit c && all_digits s'
  end.

Fixpoint fixed_tail (s : string) : bool :=
  match s with
  | EmptyString => false
  | String c s' =>
      if is_digit c then fixed_tail s'
      else Ascii.eqb c "." && (String.length s' =? 3)%nat && all_digits s'
  end.

Definition strip_sign (s : string) : string :=
  match s with
  | String c s' => if Ascii.eqb c "-" then s' else s
  | EmptyString => s
  end.

Definition is_fixed3 (s : string) : bool :=
  match strip_sign s with
  | String c s' => is_digit c && fixed_tail s'
  | EmptyString => false
  end.

(** [sub] occurs in [s]. *)
Fixpoint contains (sub s : string) : bool :=
  String.prefix sub s
  || match s with
     | EmptyString => false
     | String _ s' => contains sub s'
     end.

End Spec.

(** * Observations on outcomes

    Vocabulary for what a call may raise and what kind of number it
    returns. *)

Module Outcome.

(** The exceptions Python's arithmetic raises on numbers. *)
Definition arithmetic (e : exn) : bool :=
  match e with
  | ZeroDivisionError | OverflowError => true
  | _ => false
  end.

(** [m] returns, or raises an exception that satisfies [P]. *)
Definition raises_only {A : Type} (P : exn -> bool) (m : result A) : Prop :=
  match m with
  | Ok _ => True
  | Raise e => P e = true
  end.

Definition overflow (e : exn) : bool :=
  match e with OverflowError => true | _ => false end.

Definition is_float (v : pyval) : bool :=
  match v with PFloat _ => true | PInt _ => false end.

(** [m] raises, or returns a [float]. *)
Definition returns_float (m : result pyval) : Prop :=
  match m with
  | Ok v => is_float v = true
  | Raise _ => True
  end.

(** [v == 0] *)
Definition is_zero (v : pyval) : bool :=
  match v with
  | PInt n => n =? 0
  | PFloat x => (x =? 0)%float
  end.

(** [LEN_STEP] as each class sees it, as the [float] it is. *)
Definition len_step (c : class) : float :=
  match c with
  | Swimming => 1.38
  | Training | Running | SportsWalking => 0.65
  end.

(** The exceptions a run of the script can end with. *)
Definition script_exception (e : exn) : bool :=
  match e with
  | ValueError _ | TypeError | ZeroDivisionError | OverflowError => true
  | AttributeError | NotImplementedError => false
  end.

End Outcome.

(** * Properties *)

(** Closed goals are settled by evaluation, conjunct by conjunct. *)
Ltac split_conj := repeat match goal with |- _ /\ _ => split end.
Ltac by_evaluation := cbv zeta; split_conj; vm_compute; reflexivity.

(** ** The result monad *)

Lemma bind_Ok {A B : Type} (a : A) (k : A -> result B) : bind (Ok a) k = k a.
Proof. reflexivity. Qed.

Lemma bind_Raise {A B : Type} (e : exn) (k : A -> result B) :
  bind (Raise e) k = Raise e.
Proof. reflexivity. Qed.

Lemma bind_ret {A : Type} (m : result A) : bind m Ok = m.
Proof. destruct m; reflexivity. Qed.

Lemma bind_assoc {A B C : Type} (m : result A) (k : A -> result B)
  (h : B -> result C) :
  bind (bind m k) h = bind m (fun a => bind (k a) h).
Proof. destruct m; reflexivity. Qed.

(** ** Method resolution

    Which body a call reaches, per concrete class. *)

Section Dispatch.

Variables a d w h l n : pyval.

Lemma get_distance_inherited (self : object) :
  get_distance self = Training_get_distance self.
Proof. destruct self; reflexivity. Qed.

Lemma get_mean_speed_Running :
  get_mean_speed (NewRunning a d w) = Training_get_mean_speed (NewRunning a d w).
Proof. reflexivity. Qed.

Lemma get_mean_speed_SportsWalking :
  get_mean_speed (NewSportsWalking a d w h)
  = Training_get_mean_speed (NewSportsWalking a d w h).
Proof. reflexivity. Qed.

Lemma get_mean_speed_Swimming :
  get_mean_speed (NewSwimming a d w l n)
  = Swimming_get_mean_speed (NewSwimming a d w l n).
Proof. reflexivity. Qed.

Lemma get_spent_calories_Training :
  get_spent_calories (NewTraining a d w) = Raise NotImplementedError.
Proof. reflexivity. Qed.

Lemma get_spent_calories_Running :
  get_spent_calories (NewRunning a d w)
  = Running_get_spent_calories (NewRunning a d w).
Proof. reflexivity. Qed.

Lemma get_spent_calories_SportsWalking :
  get_spent_calories (NewSportsWalking a d w h)
  = SportsWalking_get_spent_calories (NewSportsWalking a d w h).
Proof. reflexivity. Qed.

Lemma get_spent_calories_Swimming :
  get_spent_calories (NewSwimming a d w l n)
  = Swimming_get_spent_calories (NewSwimming a d w l n).
Proof. reflexivity. Qed.

Lemma show_training_info_inherited (self : object) :
  show_training_info self = Training_show_training_info self.
Proof. destruct self; reflexivity. Qed.

End Dispatch.

(** ** Class constants as each class sees them *)

Lemma LEN_STEP_resolved (self : object) :
  LEN_STEP self = Ok (Spec.step_length_m (class_of self)).
Proof. destruct self; reflexivity. Qed.

Lemma M_IN_KM_resolved (self : object) : M_IN_KM self = int 1000.
Proof. destruct self; reflexivity. Qed.

Lemma MINUTES_IN_HOUR_resolved (self : object) : MINUTES_IN_HOUR self = int 60.
Proof. destruct self; reflexivity. Qed.

(** A subclass constant is invisible from a sibling or from the base. *)
Lemma RUN_COEFF_CAL_1_resolved (self : object) :
  RUN_COEFF_CAL_1 self
  = match class_of self with Running => int 18 | _ => Raise AttributeError end.
Proof. destruct self; reflexivity. Qed.

Create Rewrite HintDb resolve.
#[local] Hint Rewrite get_distance_inherited LEN_STEP_resolved M_IN_KM_resolved
  MINUTES_IN_HOUR_resolved : resolve.

(** ** Distance *)

Lemma get_distance_formula (self : object) (a : pyval) :
  action self = Ok a ->
  get_distance self = Spec.distance_km a (Spec.step_length_m (class_of self)).
Proof.
  intros Ha. autorewrite with resolve.
  unfold Training_get_distance. autorewrite with resolve.
  rewrite Ha. reflexivity.
Qed.

(** C5.  For every record the distance is
    [actionCount * stepLengthM / 1000], with a step of 0.65 m for Running
    and SportsWalking and of 1.38 m for Swimming. *)
Theorem distance_by_kind :
  (forall a d w, get_distance (NewRunning a d w) = Spec.distance_km a (PFloat 0.65))
  /\ (forall a d w h,
         get_distance (NewSportsWalking a d w h) = Spec.distance_km a (PFloat 0.65))
  /\ (forall a d w l n,
         get_distance (NewSwimming a d w l n) = Spec.distance_km a (PFloat 1.38)).
Proof.
  split_conj; intros;
    match goal with
    | |- get_distance ?self = _ => exact (get_distance_formula self a eq_refl)
    end.
Qed.

(** ** Mean speed *)

(** C3.  Running and SportsWalking take the mean speed from the distance,
    [get_distance() / durationHours]; Swimming takes it from the pool,
    [poolLengthM * poolLengthCount / 1000 / durationHours], while its
    distance stays the stroke formula, so that for the sample swimming
    record the distance (0.99359999999999993) is not speed times duration
    (1.0). *)
Theorem mean_speed_by_kind :
  (forall a d w,
      get_mean_speed (NewRunning a d w)
      = Spec.mean_speed_kmh (get_distance (NewRunning a d w)) d)
  /\ (forall a d w h,
         get_mean_speed (NewSportsWalking a d w h)
         = Spec.mean_speed_kmh (get_distance (NewSportsWalking a d w h)) d)
  /\ (forall a d w l n,
         get_mean_speed (NewSwimming a d w l n)
         = Spec.swimming_mean_speed_kmh l n d)
  /\ (forall a d w l n,
         get_distance (NewSwimming a d w l n) = Spec.distance_km a (PFloat 1.38))
  /\ (let self := NewSwimming (PInt 720) (PInt 1) (PInt 80) (PInt 25) (PInt 40) in
      get_distance self = flt 0.99359999999999993
      /\ (get_mean_speed self * duration self)%py = flt 1
      /\ (0.99359999999999993 =? 1)%float = false).
Proof.
  split; [|split; [|split; [|split]]].
  - intros. reflexivity.
  - intros. reflexivity.
  - intros. reflexivity.
  - intros. exact (get_distance_formula (NewSwimming a d w l n) a eq_refl).
  - by_evaluation.
Qed.

(** C9.  The mean speed of a Swimming record does not depend on its action
    count: any two Swimming records that agree on the pool length, the pool
    count and the duration have the same mean speed, whatever their action
    counts (and weights). *)
Theorem swimming_speed_independent_of_action (self1 self2 : object) :
  class_of self1 = Swimming -> class_of self2 = Swimming ->
  length_pool self1 = length_pool self2 ->
  count_pool self1 = count_pool self2 ->
  duration self1 = duration self2 ->
  get_mean_speed self1 = get_mean_speed self2.
Proof.
  intros K1 K2 Hl Hn Hd.
  destruct self1 as [| | |a1 d1 w1 l1 n1]; try discriminate K1.
  destruct self2 as [| | |a2 d2 w2 l2 n2]; try discriminate K2.
  cbn [length_pool count_pool duration] in Hl, Hn, Hd.
  injection Hl as ->. injection Hn as ->. injection Hd as ->.
  rewrite !get_mean_speed_Swimming. unfold Swimming_get_mean_speed.
  autorewrite with resolve. reflexivity.
Qed.

Lemma swimming_speed_independent_of_action_witness :
  action (NewSwimming (PInt 720) (PInt 1) (PInt 80) (PInt 25) (PInt 40))
  <> action (NewSwimming (PInt 10) (PInt 1) (PInt 80) (PInt 25) (PInt 40))
  /\ get_mean_speed (NewSwimming (PInt 720) (PInt 1) (PInt 80) (PInt 25) (PInt 40))
     = get_mean_speed (NewSwimming (PInt 10) (PInt 1) (PInt 80) (PInt 25) (PInt 40)).
Proof.
  split; [discriminate|].
  apply (swimming_speed_independent_of_action
           (NewSwimming (PInt 720) (PInt 1) (PInt 80) (PInt 25) (PInt 40))
           (NewSwimming (PInt 10) (PInt 1) (PInt 80) (PInt 25) (PInt 40)));
    reflexivity.
Defined.

(** ** Calories *)

(** C1.  For every Running record the calories are
    [(18 * meanSpeedKmh() - 20) * weightKg / 1000 * durationHours * 60]. *)
Theorem running_calories_formula (a d w : pyval) :
  get_spent_calories (NewRunning a d w)
  = Spec.running_calories (get_mean_speed (NewRunning a d w)) w d.
Proof.
  rewrite get_spent_calories_Running.
  unfold Running_get_spent_calories, Spec.running_calories.
  autorewrite with resolve. rewrite RUN_COEFF_CAL_1_resolved.
  reflexivity.
Qed.

(** C4.  For every Swimming record the calories are
    [(meanSpeedKmh() + 1.1) * 2 * weightKg]. *)
Theorem swimming_calories_formula (a d w l n : pyval) :
  get_spent_calories (NewSwimming a d w l n)
  = Spec.swimming_calories (get_mean_speed (NewSwimming a d w l n)) w.
Proof.
  rewrite get_spent_calories_Swimming.
  unfold Swimming_get_spent_calories, Spec.swimming_calories.
  reflexivity.
Qed.


(** The floor division of two [int]s is the floor of their quotient. *)
Lemma py_floordiv_int_floor (a b : Z) :
  0 < b ->
  exists q, py_floordiv (PInt a) (PInt b) = Ok (PInt q) /\ b * q <= a < b * (q + 1).
Proof.
  intros Hb. exists (a / b). split.
  - unfold py_floordiv. destruct (Z.eqb_spec b 0) as [E|_]; [lia | reflexivity].
  - pose proof (Z.mul_div_le a b Hb). pose proof (Z.mul_succ_div_gt a b Hb). lia.
Qed.

(** [**] binds tighter than [//]: the square is floor-divided, not the
    exponent. *)
Example square_then_floor_divide :
  (flt 20 ** Ok 2%N // int 180)%py = flt 2
  /\ (flt 7.5 // flt 2)%py = flt 3
  /\ (flt (-7.5) // flt 2)%py = flt (-4).
Proof. by_evaluation. Qed.

(** C2.  For every SportsWalking record the calories are
    [(0.035 * weightKg + (meanSpeedKmh() ** 2 // heightCm) * 0.029 * weightKg)
     * durationHours * 60], the square being taken first and then floor-divided
    by the height; a mean speed of 5.0 with a height of 180 makes that term 0
    (the float [0.0]), here also on a record whose mean speed is 5.0. *)
Theorem walking_calories_formula :
  (forall a d w h,
      get_spent_calories (NewSportsWalking a d w h)
      = Spec.walking_calories (get_mean_speed (NewSportsWalking a d w h)) w h d)
  /\ (flt 5 ** Ok 2%N // int 180)%py = flt 0
  /\ (let self := NewSportsWalking (PInt 100000) (PInt 13) (PInt 75) (PInt 180) in
      get_mean_speed self = flt 5
      /\ (get_mean_speed self ** WLK_COEFF_CAL_2 self // height self)%py = flt 0).
Proof.
  split; [|split].
  - intros. rewrite get_spent_calories_SportsWalking.
    unfold SportsWalking_get_spent_calories, Spec.walking_calories.
    autorewrite with resolve. reflexivity.
  - vm_compute. reflexivity.
  - by_evaluation.
Qed.

(** In binary64 arithmetic, when every input already is a [float]. *)
Lemma running_calories_binary64 (s w d : float) :
  Spec.running_calories (flt s) (PFloat w) (PFloat d)
  = flt ((18 * s - 20) * w / 1000 * d * 60)%float.
Proof. reflexivity. Qed.

Lemma swimming_calories_binary64 (s w : float) :
  Spec.swimming_calories (flt s) (PFloat w) = flt ((s + 1.1) * 2 * w)%float.
Proof. reflexivity. Qed.

(** C8.  A Running record of 15000 steps in 1 hour by a 75 kg athlete has
    distance exactly 9.75 and mean speed exactly 9.75, whether the three
    numbers come as [int] or as [float]. *)
Theorem running_sample_distance_speed (a d w : pyval) :
  Spec.number 15000 a -> Spec.number 1 d -> Spec.number 75 w ->
  get_distance (NewRunning a d w) = flt 9.75
  /\ get_mean_speed (NewRunning a d w) = flt 9.75.
Proof.
  intros Ha Hd Hw.
  destruct a as [a|a], d as [d|d], w as [w|w]; cbn [Spec.number] in Ha, Hd, Hw;
    repeat match goal with
      | H : float_of_int _ = Ok _ |- _ => vm_compute in H; injection H as <-
      | H : _ = _ :> Z |- _ => rewrite H; clear H
      end;
    split; vm_compute; reflexivity.
Qed.

Lemma running_sample_distance_speed_witness :
  get_distance (NewRunning (PInt 15000) (PInt 1) (PInt 75)) = flt 9.75
  /\ get_mean_speed (NewRunning (PInt 15000) (PInt 1) (PInt 75)) = flt 9.75.
Proof.
  apply (running_sample_distance_speed (PInt 15000) (PInt 1) (PInt 75));
    reflexivity.
Defined.

(** C10.  Some Running record that satisfies the invariants (action count
    >= 0, duration > 0, weight > 0) burns a strictly negative number of
    calories: with no steps at all the mean speed is 0, below 20/18, and
    the calories are -90. *)
Theorem running_negative_calories :
  exists d w speed calories,
    let self := NewRunning (PInt 0) d w in
    Spec.valid_record self = true
    /\ get_mean_speed self = flt speed
    /\ (speed <? 20 / 18)%float = true
    /\ get_spent_calories self = Ok calories
    /\ Spec.negative calories = true.
Proof.
  exists (PInt 1), (PInt 75), 0%float, (PFloat (-90)).
  by_evaluation.
Qed.

(** Over one hour the mean speed stays below 20/18 km/h up to 1709 steps,
    and every such record burns negative calories; the 1710th step brings
    the speed above 20/18 and the calories above zero. *)
Lemma running_negative_up_to_threshold :
  (forall a, 0 <= a <= 1709 -> Spec.burns_negative a = true)
  /\ Spec.burns_negative 1710 = false.
Proof.
  split; [|vm_compute; reflexivity].
  assert (H : forallb (fun k => Spec.burns_negative (Z.of_nat k)) (seq 0 1710) = true)
    by (vm_compute; reflexivity).
  rewrite forallb_forall in H.
  intros a Ha. specialize (H (Z.to_nat a)).
  rewrite Z2Nat.id in H by lia. apply H.
  apply in_seq. lia.
Qed.

(** The same with steps taken, only slowly: 1000 steps in an hour. *)
Example running_negative_calories_slow :
  let self := NewRunning (PInt 1000) (PInt 1) (PInt 75) in
  Spec.valid_record self = true
  /\ get_mean_speed self = flt 0.65
  /\ (0.65 <? 20 / 18)%float = true
  /\ get_spent_calories self = flt (-37.349999999999987).
Proof. by_evaluation. Qed.

(** ** Dispatch by tag *)

Lemma workout_types_other (tag : string) :
  tag <> SWM -> tag <> RUN -> tag <> WLK -> workout_types !! tag = None.
Proof.
  intros H1 H2 H3. unfold workout_types.
  rewrite lookup_insert_ne by congruence.
  rewrite lookup_insert_ne by congruence.
  apply lookup_singleton_ne. congruence.
Qed.

(** C6.  [read_package] builds a Swimming record from tag "SWM" and 5
    arguments, a Running record from "RUN" and 3, a SportsWalking record
    from "WLK" and 4, each from the arguments in their order; any other
    tag raises the unsupported-workout-type [ValueError] whatever the
    arguments, and nothing is constructed. *)
Theorem read_package_dispatch :
  (forall a d w l n, read_package "SWM" [a; d; w; l; n] = Ok (NewSwimming a d w l n))
  /\ (forall a d w, read_package "RUN" [a; d; w] = Ok (NewRunning a d w))
  /\ (forall a d w h, read_package "WLK" [a; d; w; h] = Ok (NewSportsWalking a d w h))
  /\ (forall tag data,
         tag <> "SWM" -> tag <> "RUN" -> tag <> "WLK" ->
         read_package tag data = Raise (ValueError "Тип тренировки не предусмотрен")).
Proof.
  split; [|split; [|split]].
  - intros. vm_compute. reflexivity.
  - intros. vm_compute. reflexivity.
  - intros. vm_compute. reflexivity.
  - intros tag data H1 H2 H3. unfold read_package.
    rewrite (workout_types_other tag H1 H2 H3). reflexivity.
Qed.

Lemma read_package_dispatch_witness :
  read_package "XYZ" [PInt 1; PInt 2; PInt 3]
  = Raise (ValueError "Тип тренировки не предусмотрен").
Proof.
  apply (proj2 (proj2 (proj2 read_package_dispatch))); discriminate.
Defined.

(** ** The summary line *)

(** The thousandths printed are the nearest ones to the binary value
    [m * 2^e]: exact for an integer, within half a thousandth otherwise. *)
Lemma round_half_even_scaled_nearest (m : positive) (e : Z) :
  (0 <= e -> round_half_even_scaled m e = Zpos m * 1000 * 2 ^ e)
  /\ (e < 0 ->
      2 * Z.abs (round_half_even_scaled m e * 2 ^ (- e) - Zpos m * 1000) <= 2 ^ (- e)).
Proof.
  unfold round_half_even_scaled. split; intros He.
  - destruct (Z.leb_spec 0 e); [reflexivity | lia].
  - destruct (Z.leb_spec 0 e); [lia|].
    assert (Hd : 0 < 2 ^ (- e)) by (apply Z.pow_pos_nonneg; lia).
    set (d := 2 ^ (- e)) in *.
    pose proof (Z.div_mod (Zpos m * 1000) d ltac:(lia)) as Hdm.
    pose proof (Z.mod_pos_bound (Zpos m * 1000) d Hd) as Hr.
    set (q := Zpos m * 1000 / d) in *. set (r := (Zpos m * 1000) mod d) in *.
    destruct (Z.compare_spec (2 * r) d); [destruct (Z.even q)| |]; nia.
Qed.

Lemma digit_is_digit (n : Z) : 0 <= n < 10 -> Spec.is_digit (digit n) = true.
Proof.
  intros H. unfold digit.
  assert (Hk : (Z.to_nat n < 10)%nat) by lia.
  revert Hk. generalize (Z.to_nat n). intros k Hk.
  do 10 (destruct k as [|k]; [reflexivity|]). lia.
Qed.

Lemma all_digits_string_of_uint (u : Decimal.uint) :
  Spec.all_digits (NilEmpty.string_of_uint u) = true.
Proof. induction u; simpl; auto. Qed.

Lemma decimal_shape (n : Z) :
  exists c s, decimal n = String c s
              /\ Spec.is_digit c = true /\ Spec.all_digits s = true.
Proof.
  unfold decimal, NilZero.string_of_uint.
  destruct (N.to_uint (Z.to_N n)) as [|u|u|u|u|u|u|u|u|u|u]; simpl;
    eexists; eexists; (split; [reflexivity|]);
    (split; [reflexivity | first [reflexivity | apply all_digits_string_of_uint]]).
Qed.

Lemma fixed_tail_append (ip f : string) :
  Spec.all_digits ip = true ->
  String.length f = 3%nat -> Spec.all_digits f = true ->
  Spec.fixed_tail (ip +:+ "." +:+ f) = true.
Proof.
  intros Hip Hlen Hf. induction ip as [|c ip IH].
  - change (Ascii.eqb "." "." && (String.length f =? 3)%nat && Spec.all_digits f = true).
    rewrite Hlen, Hf. reflexivity.
  - simpl in Hip. apply andb_prop in Hip as [Hc Hip].
    change (Spec.fixed_tail (String c (ip +:+ "." +:+ f)) = true).
    cbn [Spec.fixed_tail]. rewrite Hc. apply IH, Hip.
Qed.

Lemma is_digit_not_minus (c : ascii) :
  Spec.is_digit c = true -> Ascii.eqb c "-" = false.
Proof.
  destruct c as [[] [] [] [] [] [] [] []]; intros H;
    first [reflexivity | discriminate H].
Qed.

(** Whatever the thousandths, they are printed as digits, a point and
    three digits, after the sign. *)
Lemma fixed3_is_fixed3 (neg : bool) (q : Z) : Spec.is_fixed3 (fixed3 neg q) = true.
Proof.
  unfold fixed3.
  destruct (decimal_shape (q / 1000)) as (c & s & -> & Hc & Hs).
  set (f := String (digit (q / 100 mod 10)) _).
  assert (Hlen : String.length f = 3%nat) by reflexivity.
  assert (Hf : Spec.all_digits f = true).
  { unfold f. cbn [Spec.all_digits].
    rewrite !digit_is_digit by (apply Z.mod_pos_bound; lia). reflexivity. }
  pose proof (fixed_tail_append s f Hs Hlen Hf) as Ht.
  destruct neg.
  - change (Spec.is_fixed3 (String "-" (String c (s +:+ "." +:+ f))) = true).
    unfold Spec.is_fixed3, Spec.strip_sign.
    change (Ascii.eqb "-" "-") with true. cbv iota.
    rewrite Hc. exact Ht.
  - change (Spec.is_fixed3 (String c (s +:+ "." +:+ f)) = true).
    unfold Spec.is_fixed3, Spec.strip_sign.
    rewrite (is_digit_not_minus c Hc), Hc. exact Ht.
Qed.

(** A finite float is a zero or has a mantissa and an exponent. *)
Lemma is_finite_Prim2SF (x : float) :
  is_finite x = true ->
  match Prim2SF x with
  | S754_zero _ | S754_finite _ _ _ => True
  | S754_infinity _ | S754_nan => False
  end.
Proof.
  unfold is_finite, Prim2SF. intros H.
  destruct (is_nan x); [discriminate H|].
  destruct (is_zero x); [exact I|].
  destruct (is_infinity x); [discriminate H|].
  destruct (Z.frexp x) as [r ex].
  destruct (shr_fexp _ _ _ _ _) as [mrs e'].
  destruct (shr_m mrs); exact I.
Qed.

Lemma float_format_3f_fixed (x : float) :
  is_finite x = true -> Spec.is_fixed3 (float_format_3f x) = true.
Proof.
  intros H. apply is_finite_Prim2SF in H. unfold float_format_3f.
  destruct (Prim2SF x); try contradiction; apply fixed3_is_fixed3.
Qed.

Lemma py_format_3f_fixed (v : pyval) :
  Spec.finite_number v = true ->
  exists s, py_format_3f v = Ok s /\ Spec.is_fixed3 s = true.
Proof.
  unfold Spec.finite_number, py_format_3f. intros H.
  destruct (as_float v) as [x|e]; [|discriminate H].
  exists (float_format_3f x). split; [reflexivity|].
  apply float_format_3f_fixed, H.
Qed.

(** Infinities and NaN are printed by name, without decimals. *)
Lemma float_format_3f_not_finite :
  float_format_3f infinity = "inf"
  /\ float_format_3f neg_infinity = "-inf"
  /\ float_format_3f nan = "nan"
  /\ Spec.is_fixed3 "inf" = false
  /\ Spec.is_fixed3 "-inf" = false
  /\ Spec.is_fixed3 "nan" = false.
Proof. by_evaluation. Qed.

(** The script's three sample packages print the three expected lines. *)
Example run_packages :
  run packages []
  = Ok [ "Тип тренировки: Swimming; Длительность: 1.000 ч.; Дистанция: 0.994 км; Ср. скорость: 1.000 км/ч; Потрачено ккал: 336.000.";
         "Тип тренировки: Running; Длительность: 1.000 ч.; Дистанция: 9.750 км; Ср. скорость: 9.750 км/ч; Потрачено ккал: 699.750.";
         "Тип тренировки: SportsWalking; Длительность: 1.000 ч.; Дистанция: 5.850 км; Ср. скорость: 5.850 км/ч; Потрачено ккал: 157.500." ].
Proof. vm_compute. reflexivity. Qed.

(** C7, as the code has it.  For every record whose distance, mean speed
    and calories are computed and whose four numbers are finite, the line
    printed is the fixed template filled with the name of the record's
    class and with the duration, the distance, the mean speed and the
    calories, each in fixed-point notation with exactly three decimals;
    and ("RUN", [9000, 1, 75]) prints a line that contains the Running
    label, duration 1.000, distance 5.850 and mean speed 5.850. *)
Theorem summary_format :
  (forall self du di sp ca,
      duration self = Ok du ->
      get_distance self = Ok di ->
      get_mean_speed self = Ok sp ->
      get_spent_calories self = Ok ca ->
      Spec.finite_number du = true -> Spec.finite_number di = true ->
      Spec.finite_number sp = true -> Spec.finite_number ca = true ->
      exists s1 s2 s3 s4,
        main self [] = Ok [InfoMessage.TEXT (class_name (class_of self)) s1 s2 s3 s4]
        /\ (py_format_3f du = Ok s1 /\ Spec.is_fixed3 s1 = true)
        /\ (py_format_3f di = Ok s2 /\ Spec.is_fixed3 s2 = true)
        /\ (py_format_3f sp = Ok s3 /\ Spec.is_fixed3 s3 = true)
        /\ (py_format_3f ca = Ok s4 /\ Spec.is_fixed3 s4 = true))
  /\ (exists line,
         (let! training := read_package "RUN" [PInt 9000; PInt 1; PInt 75] in
          main training []) = Ok [line]
         /\ line = "Тип тренировки: Running; Длительность: 1.000 ч.; Дистанция: 5.850 км; Ср. скорость: 5.850 км/ч; Потрачено ккал: 383.850."
         /\ Spec.contains "Тип тренировки: Running" line = true
         /\ Spec.contains "Длительность: 1.000 ч." line = true
         /\ Spec.contains "Дистанция: 5.850 км" line = true
         /\ Spec.contains "Ср. скорость: 5.850 км/ч" line = true).
Proof.
  split.
  - intros self du di sp ca Hdu Hdi Hsp Hca Fdu Fdi Fsp Fca.
    destruct (py_format_3f_fixed du Fdu) as (s1 & E1 & T1).
    destruct (py_format_3f_fixed di Fdi) as (s2 & E2 & T2).
    destruct (py_format_3f_fixed sp Fsp) as (s3 & E3 & T3).
    destruct (py_format_3f_fixed ca Fca) as (s4 & E4 & T4).
    exists s1, s2, s3, s4. split_conj; try assumption.
    unfold main. rewrite show_training_info_inherited.
    unfold Training_show_training_info.
    rewrite Hdu, Hdi, Hsp, Hca. simpl.
    unfold InfoMessage.get_message. simpl.
    rewrite E1, E2, E3, E4. reflexivity.
  - eexists. split; [vm_compute; reflexivity|]. by_evaluation.
Qed.

Lemma summary_format_witness :
  exists s1 s2 s3 s4,
    main (NewRunning (PInt 9000) (PInt 1) (PInt 75)) []
    = Ok [InfoMessage.TEXT "Running" s1 s2 s3 s4]
    /\ (py_format_3f (PInt 1) = Ok s1 /\ Spec.is_fixed3 s1 = true)
    /\ (py_format_3f (PFloat 5.8499999999999996) = Ok s2 /\ Spec.is_fixed3 s2 = true)
    /\ (py_format_3f (PFloat 5.8499999999999996) = Ok s3 /\ Spec.is_fixed3 s3 = true)
    /\ (py_format_3f (PFloat 383.85000000000002) = Ok s4 /\ Spec.is_fixed3 s4 = true).
Proof.
  apply (proj1 summary_format (NewRunning (PInt 9000) (PInt 1) (PInt 75))
           (PInt 1) (PFloat 5.8499999999999996) (PFloat 5.8499999999999996)
           (PFloat 383.85000000000002));
    vm_compute; reflexivity.
Defined.

(** C7, as stated, fails on a record whose calories overflow binary64:
    9000 steps in 1 hour by a weight of 10^308 give infinite calories,
    which are printed as [inf], not with three decimals. *)
Lemma summary_calories_inf :
  read_package "RUN" [PInt 9000; PInt 1; PInt (10 ^ 308)]
  = Ok (NewRunning (PInt 9000) (PInt 1) (PInt (10 ^ 308)))
  /\ Spec.valid_record (NewRunning (PInt 9000) (PInt 1) (PInt (10 ^ 308))) = true
  /\ get_spent_calories (NewRunning (PInt 9000) (PInt 1) (PInt (10 ^ 308)))
     = flt infinity
  /\ py_format_3f (PFloat infinity) = Ok "inf"
  /\ Spec.is_fixed3 "inf" = false
  /\ main (NewRunning (PInt 9000) (PInt 1) (PInt (10 ^ 308))) []
     = Ok ["Тип тренировки: Running; Длительность: 1.000 ч.; Дистанция: 5.850 км; Ср. скорость: 5.850 км/ч; Потрачено ккал: inf."]
  /\ ~ (forall self ca s,
          get_spent_calories self = Ok ca -> py_format_3f ca = Ok s ->
          Spec.is_fixed3 s = true).
Proof.
  split_conj; [vm_compute; reflexivity .. |].
  intros H.
  specialize (H (NewRunning (PInt 9000) (PInt 1) (PInt (10 ^ 308)))
                (PFloat infinity) "inf").
  assert (E : Spec.is_fixed3 "inf" = true)
    by (apply H; vm_compute; reflexivity).
  discriminate E.
Qed.

(** * Further properties of the code *)

(** ** What the arithmetic can raise, and what it returns *)

Section Outcomes.

Import Outcome.

Lemma raises_only_bind {A B : Type} (P : exn -> bool) (m : result A)
  (k : A -> result B) :
  raises_only P m -> (forall a, m = Ok a -> raises_only P (k a)) ->
  raises_only P (bind m k).
Proof. destruct m as [a|e]; simpl; intros Hm Hk; [apply Hk; reflexivity | exact Hm]. Qed.

Lemma raises_only_weaken {A : Type} (P Q : exn -> bool) (m : result A) :
  (forall e, P e = true -> Q e = true) -> raises_only P m -> raises_only Q m.
Proof. destruct m; simpl; auto. Qed.

Lemma overflow_arithmetic (e : exn) : overflow e = true -> arithmetic e = true.
Proof. destruct e; simpl; congruence. Qed.

Lemma float_of_int_raises (n : Z) : raises_only overflow (float_of_int n).
Proof. unfold float_of_int. destruct (is_infinity _); exact I || reflexivity. Qed.

Lemma as_float_raises (v : pyval) : raises_only overflow (as_float v).
Proof. destruct v; [apply float_of_int_raises | exact I]. Qed.

Lemma float_binop_raises (f : float -> float -> float) (v w : pyval) :
  raises_only overflow
    (let! x := as_float v in let! y := as_float w in Ok (PFloat (f x y))).
Proof.
  apply raises_only_bind; [apply as_float_raises | intros x _].
  apply raises_only_bind; [apply as_float_raises | intros y _]. exact I.
Qed.

Lemma py_add_raises (v w : pyval) : raises_only overflow (py_add v w).
Proof. destruct v, w; first [exact I | apply (float_binop_raises PrimFloat.add)]. Qed.

Lemma py_sub_raises (v w : pyval) : raises_only overflow (py_sub v w).
Proof. destruct v, w; first [exact I | apply (float_binop_raises PrimFloat.sub)]. Qed.

Lemma py_mul_raises (v w : pyval) : raises_only overflow (py_mul v w).
Proof. destruct v, w; first [exact I | apply (float_binop_raises PrimFloat.mul)]. Qed.

Lemma float_divop_raises (f : float -> float -> float) (v w : pyval) :
  raises_only arithmetic
    (let! x := as_float v in let! y := as_float w in
     if (y =? 0)%float then Raise ZeroDivisionError else Ok (PFloat (f x y))).
Proof.
  apply raises_only_bind;
    [apply (raises_only_weaken overflow), as_float_raises; apply overflow_arithmetic
    | intros x _].
  apply raises_only_bind;
    [apply (raises_only_weaken overflow), as_float_raises; apply overflow_arithmetic
    | intros y _].
  destruct (y =? 0)%float; [reflexivity | exact I].
Qed.

Lemma int_true_divide_raises (a b : Z) : raises_only arithmetic (int_true_divide a b).
Proof.
  unfold int_true_divide. destruct (b =? 0); [reflexivity|].
  destruct a; [exact I | |]; destruct (is_infinity _); exact I || reflexivity.
Qed.

Lemma py_truediv_raises (v w : pyval) : raises_only arithmetic (py_truediv v w).
Proof.
  destruct v, w;
    first [apply int_true_divide_raises | apply (float_divop_raises PrimFloat.div)].
Qed.

Lemma py_floordiv_raises (v w : pyval) : raises_only arithmetic (py_floordiv v w).
Proof.
  destruct v as [a|x], w as [b|y];
    first [apply (float_divop_raises float_floor_div) | idtac].
  unfold py_floordiv. destruct (b =? 0); [reflexivity | exact I].
Qed.

Lemma float_pow_raises (x : float) (k : Z) : raises_only overflow (float_pow x k).
Proof.
  unfold float_pow. destruct (k =? 0); [exact I|].
  destruct (Prim2SF x); try exact I.
  destruct (is_infinity _); exact I || reflexivity.
Qed.

Lemma py_pow_raises (v : pyval) (n : N) : raises_only overflow (py_pow v n).
Proof.
  destruct v; [exact I|]. unfold py_pow.
  apply raises_only_bind; [apply float_of_int_raises | intros iw _].
  apply raises_only_bind; [apply float_pow_raises | intros r _]. exact I.
Qed.

Lemma lift2_raises (op : pyval -> pyval -> result pyval) (a b : result pyval) :
  raises_only arithmetic a -> raises_only arithmetic b ->
  (forall x y, raises_only arithmetic (op x y)) ->
  raises_only arithmetic (lift2 op a b).
Proof.
  intros Ha Hb Hop. unfold lift2.
  apply raises_only_bind; [exact Ha | intros x _].
  apply raises_only_bind; [exact Hb | intros y _]. apply Hop.
Qed.

Lemma lift_pow_raises (a : result pyval) (n : result N) :
  raises_only arithmetic a -> raises_only arithmetic n ->
  raises_only arithmetic (lift_pow a n).
Proof.
  intros Ha Hn. unfold lift_pow.
  apply raises_only_bind; [exact Ha | intros x _].
  apply raises_only_bind; [exact Hn | intros k _].
  apply (raises_only_weaken overflow), py_pow_raises. apply overflow_arithmetic.
Qed.

Lemma py_add_arith (v w : pyval) : raises_only arithmetic (py_add v w).
Proof. apply (raises_only_weaken overflow), py_add_raises. apply overflow_arithmetic. Qed.

Lemma py_sub_arith (v w : pyval) : raises_only arithmetic (py_sub v w).
Proof. apply (raises_only_weaken overflow), py_sub_raises. apply overflow_arithmetic. Qed.

Lemma py_mul_arith (v w : pyval) : raises_only arithmetic (py_mul v w).
Proof. apply (raises_only_weaken overflow), py_mul_raises. apply overflow_arithmetic. Qed.

End Outcomes.

Section MethodOutcomes.

Import Outcome.

Lemma raises_only_arithmetic_inv {A : Type} (m : result A) (e : exn) :
  raises_only arithmetic m -> m = Raise e ->
  e = ZeroDivisionError \/ e = OverflowError.
Proof.
  intros H ->. simpl in H. destruct e; try discriminate H; auto.
Qed.

(** One step of the analysis of an arithmetic expression. *)
Ltac arith_step :=
  first [ apply lift2_raises
        | apply lift_pow_raises
        | intros; apply py_add_arith
        | intros; apply py_sub_arith
        | intros; apply py_mul_arith
        | intros; apply py_truediv_raises
        | intros; apply py_floordiv_raises
        | exact I ].

Lemma get_distance_raises (self : object) :
  raises_only arithmetic (get_distance self).
Proof.
  rewrite get_distance_inherited. unfold Training_get_distance.
  autorewrite with resolve. destruct self; cbn [action]; repeat arith_step.
Qed.

Lemma get_mean_speed_raises (self : object) :
  raises_only arithmetic (get_mean_speed self).
Proof.
  pose proof (get_distance_raises self) as Hd.
  destruct self as [a d w|a d w|a d w h|a d w l n].
  - change (raises_only arithmetic (Training_get_mean_speed (NewTraining a d w))).
    unfold Training_get_mean_speed. arith_step; [exact Hd | exact I | arith_step].
  - rewrite get_mean_speed_Running.
    unfold Training_get_mean_speed. arith_step; [exact Hd | exact I | arith_step].
  - rewrite get_mean_speed_SportsWalking.
    unfold Training_get_mean_speed. arith_step; [exact Hd | exact I | arith_step].
  - rewrite get_mean_speed_Swimming. unfold Swimming_get_mean_speed.
    autorewrite with resolve. cbn [length_pool count_pool duration].
    repeat arith_step.
Qed.

Lemma get_spent_calories_raises (self : object) :
  class_of self <> Training -> raises_only arithmetic (get_spent_calories self).
Proof.
  intros Hc. pose proof (get_mean_speed_raises self) as Hs.
  destruct self as [a d w|a d w|a d w h|a d w l n]; [contradiction Hc; reflexivity | | |].
  - rewrite get_spent_calories_Running. unfold Running_get_spent_calories.
    autorewrite with resolve. rewrite RUN_COEFF_CAL_1_resolved.
    cbn [class_of weight duration].
    repeat first [exact Hs | arith_step].
  - rewrite get_spent_calories_SportsWalking.
    unfold SportsWalking_get_spent_calories.
    autorewrite with resolve. cbn [weight duration height].
    repeat first [exact Hs | arith_step].
  - rewrite get_spent_calories_Swimming. unfold Swimming_get_spent_calories.
    cbn [weight]. repeat first [exact Hs | arith_step].
Qed.

End MethodOutcomes.

(** ** The computation in binary64 *)

(** The distance of every record as one binary64 expression. *)
Lemma get_distance_float_form (self : object) (a : pyval) :
  action self = Ok a ->
  get_distance self
  = (let! x := as_float a in
     flt (x * Outcome.len_step (class_of self) / 1000)%float).
Proof.
  intros Ha. rewrite (get_distance_formula self a Ha).
  unfold Spec.distance_km, val, lift2.
  destruct self, a as [n|x]; cbn [class_of Spec.step_length_m Outcome.len_step bind py_mul as_float];
    try destruct (float_of_int n); reflexivity.
Qed.

(** X1.  The distance of every record is [float(action) * LEN_STEP / 1000]
    computed in binary64; it fails exactly when the action count is an
    [int] too large for a [float], and then with that [OverflowError]:
    the division by the constant 1000 never fails. *)
Theorem get_distance_binary64 (self : object) (a : pyval) :
  action self = Ok a ->
  get_distance self
  = (let! x := as_float a in
     flt (x * Outcome.len_step (class_of self) / 1000)%float)
  /\ (forall e, get_distance self = Raise e <->
                 e = OverflowError /\ as_float a = Raise OverflowError).
Proof.
  intros Ha. rewrite (get_distance_float_form self a Ha).
  split; [reflexivity|]. intros e.
  pose proof (as_float_raises a) as Hr.
  destruct (as_float a) as [x|e'] eqn:E; cbn [bind]; simpl in Hr.
  - split; [discriminate | intros [_ H]; discriminate H].
  - destruct e'; try discriminate Hr.
    split; [intros [= <-]; auto | intros [-> _]; reflexivity].
Qed.

Lemma get_distance_binary64_witness :
  get_distance (NewSwimming (PInt (10 ^ 400)) (PInt 1) (PInt 80) (PInt 25) (PInt 40))
  = (let! x := as_float (PInt (10 ^ 400)) in
     flt (x * Outcome.len_step Swimming / 1000)%float)
  /\ (forall e,
         get_distance (NewSwimming (PInt (10 ^ 400)) (PInt 1) (PInt 80) (PInt 25) (PInt 40))
         = Raise e <->
         e = OverflowError /\ as_float (PInt (10 ^ 400)) = Raise OverflowError).
Proof.
  apply (get_distance_binary64
           (NewSwimming (PInt (10 ^ 400)) (PInt 1) (PInt 80) (PInt 25) (PInt 40))
           (PInt (10 ^ 400))).
  reflexivity.
Defined.

(** For a record that inherits [get_mean_speed] (every class but
    Swimming) the mean speed is [float(action) * 0.65 / 1000 / float(duration)]
    in binary64; a zero duration raises [ZeroDivisionError] once the action
    count and the duration have been converted. *)
Lemma get_mean_speed_float_form (self : object) (a d : pyval) :
  class_of self <> Swimming ->
  action self = Ok a -> duration self = Ok d ->
  get_mean_speed self
  = (let! x := as_float a in
     let! y := as_float d in
     if (y =? 0)%float then Raise ZeroDivisionError
     else flt (x * 0.65 / 1000 / y)%float).
Proof.
  intros Hc Ha Hd.
  assert (E : get_mean_speed self = Training_get_mean_speed self)
    by (destruct self; [reflexivity .. | contradiction Hc; reflexivity]).
  rewrite E. unfold Training_get_mean_speed.
  rewrite (get_distance_float_form self a Ha), Hd.
  assert (L : Outcome.len_step (class_of self) = 0.65%float)
    by (destruct self; [reflexivity .. | contradiction Hc; reflexivity]).
  rewrite L. unfold lift2, flt.
  destruct (as_float a) as [x|e]; [|reflexivity].
  cbn [bind]. destruct d as [n|y]; reflexivity.
Qed.

Lemma float_of_int_literals :
  float_of_int 18 = Ok 18%float /\ float_of_int 20 = Ok 20%float
  /\ float_of_int 1000 = Ok 1000%float /\ float_of_int 60 = Ok 60%float
  /\ float_of_int 2 = Ok 2%float.
Proof. split_conj; vm_compute; reflexivity. Qed.

(** Evaluates an expression whose conversions are those of the literals and
    of the numbers already converted in the context. *)
Ltac by_literals :=
  destruct float_of_int_literals as (L18 & L20 & L1000 & L60 & L2);
  repeat first
    [ progress cbn [bind py_mul py_sub py_add py_truediv as_float]
    | rewrite L18 | rewrite L20 | rewrite L1000 | rewrite L60 | rewrite L2
    | match goal with E : float_of_int ?v = Ok _ |- _ => rewrite E end
    | match goal with
      | |- context [float_of_int ?v] =>
          is_var v; let E := fresh "E" in
          destruct (float_of_int v) eqn:E; [|reflexivity]
      end
    | match goal with
      | |- context [(1000 =? 0)%float] => change ((1000 =? 0)%float) with false
      end ];
  reflexivity.

Lemma running_calories_formula_aux (a d w : pyval) :
  get_spent_calories (NewRunning a d w)
  = Spec.running_calories (get_mean_speed (NewRunning a d w)) w d.
Proof.
  rewrite get_spent_calories_Running.
  unfold Running_get_spent_calories, Spec.running_calories.
  autorewrite with resolve. rewrite RUN_COEFF_CAL_1_resolved. reflexivity.
Qed.

(** X2.  The calories of a Running record as one binary64 expression of
    its three numbers, [int] or [float]: the action count and the duration
    are converted first, a zero duration raises [ZeroDivisionError], then
    the weight is converted. *)
Theorem running_calories_binary64_closed (a d w : pyval) :
  get_spent_calories (NewRunning a d w)
  = (let! x := as_float a in
     let! y := as_float d in
     if (y =? 0)%float then Raise ZeroDivisionError
     else
       let! z := as_float w in
       flt ((18 * (x * 0.65 / 1000 / y) - 20) * z / 1000 * y * 60)%float).
Proof.
  rewrite running_calories_formula_aux.
  rewrite (get_mean_speed_float_form (NewRunning a d w) a d)
    by (discriminate || reflexivity).
  unfold Spec.running_calories, lift2, int, val, flt.
  destruct a as [k|x], d as [n|y], w as [m|z]; cbn [as_float];
    repeat match goal with
      | |- context [float_of_int ?v] =>
          is_var v; let E := fresh "E" in
          destruct (float_of_int v) eqn:E; [|reflexivity]
      end;
    cbn [bind];
    match goal with |- context [(?y =? 0)%float] => destruct (y =? 0)%float end;
    try reflexivity;
    by_literals.
Qed.

(** ** Results are floats *)

Section FloatResults.

Import Outcome.

Lemma returns_float_bind {A : Type} (m : result A) (k : A -> result pyval) :
  (forall a, returns_float (k a)) -> returns_float (bind m k).
Proof. destruct m; simpl; auto. Qed.

Lemma float_op_returns_float (f : float -> float -> float) (v w : pyval) :
  returns_float (let! x := as_float v in let! y := as_float w in Ok (PFloat (f x y))).
Proof. do 2 (apply returns_float_bind; intros). reflexivity. Qed.

Lemma py_truediv_returns_float (v w : pyval) : returns_float (py_truediv v w).
Proof.
  destruct v as [a|x], w as [b|y];
    try (unfold py_truediv; do 2 (apply returns_float_bind; intros);
         destruct (_ =? 0)%float; [exact I | reflexivity]).
  unfold py_truediv, int_true_divide. destruct (b =? 0); [exact I|].
  destruct a; [reflexivity | |]; destruct (is_infinity _); exact I || reflexivity.
Qed.

Lemma py_mul_float_left (x : float) (w : pyval) : returns_float (py_mul (PFloat x) w).
Proof. destruct w; apply (float_op_returns_float PrimFloat.mul). Qed.

Lemma py_add_float_left (x : float) (w : pyval) : returns_float (py_add (PFloat x) w).
Proof. destruct w; apply (float_op_returns_float PrimFloat.add). Qed.

Lemma py_sub_float_left (x : float) (w : pyval) : returns_float (py_sub (PFloat x) w).
Proof. destruct w; apply (float_op_returns_float PrimFloat.sub). Qed.

Lemma lift2_returns_float (op : pyval -> pyval -> result pyval) (a b : result pyval) :
  (forall x y, returns_float (op x y)) -> returns_float (lift2 op a b).
Proof. intros H. unfold lift2. do 2 (apply returns_float_bind; intros). apply H. Qed.

Lemma lift2_returns_float_left (op : pyval -> pyval -> result pyval)
  (a b : result pyval) :
  returns_float a -> (forall x y, returns_float (op (PFloat x) y)) ->
  returns_float (lift2 op a b).
Proof.
  intros Ha H. unfold lift2. destruct a as [[n|x]|e]; simpl in Ha |- *;
    [discriminate Ha | | exact I].
  apply returns_float_bind. intros y. apply H.
Qed.

Ltac float_step :=
  first [ apply lift2_returns_float; intros; apply py_truediv_returns_float
        | apply lift2_returns_float_left;
          [| intros; first [ apply py_mul_float_left | apply py_add_float_left
                           | apply py_sub_float_left ] ]
        | reflexivity ].

Lemma get_distance_returns_float (self : object) : returns_float (get_distance self).
Proof.
  rewrite get_distance_inherited. unfold Training_get_distance. float_step.
Qed.

Lemma get_mean_speed_returns_float (self : object) :
  returns_float (get_mean_speed self).
Proof.
  destruct self as [a d w|a d w|a d w h|a d w l n];
    [change (returns_float (Training_get_mean_speed (NewTraining a d w)))
    | rewrite get_mean_speed_Running
    | rewrite get_mean_speed_SportsWalking
    | rewrite get_mean_speed_Swimming ];
    first [unfold Training_get_mean_speed | unfold Swimming_get_mean_speed];
    float_step.
Qed.

Lemma get_spent_calories_returns_float (self : object) :
  returns_float (get_spent_calories self).
Proof.
  pose proof (get_mean_speed_returns_float self) as Hs.
  destruct self as [a d w|a d w|a d w h|a d w l n].
  - exact I.
  - rewrite get_spent_calories_Running. unfold Running_get_spent_calories.
    do 2 float_step. float_step.
  - rewrite get_spent_calories_SportsWalking.
    unfold SportsWalking_get_spent_calories. repeat float_step.
  - rewrite get_spent_calories_Swimming. unfold Swimming_get_spent_calories.
    repeat first [exact Hs | float_step].
Qed.

End FloatResults.

(** ** Exceptions and result kinds of the three computations *)

(** X3.  Whatever the numbers of a record, the distance, the mean speed
    and (for the three concrete kinds) the calories can only fail with
    [ZeroDivisionError] or [OverflowError]: no attribute is missing and no
    abstract method is reached. *)
Theorem computation_raises_arithmetic (self : object) (e : exn) :
  get_distance self = Raise e
  \/ get_mean_speed self = Raise e
  \/ (class_of self <> Training /\ get_spent_calories self = Raise e) ->
  e = ZeroDivisionError \/ e = OverflowError.
Proof.
  intros [H | [H | [Hc H]]].
  - exact (raises_only_arithmetic_inv _ e (get_distance_raises self) H).
  - exact (raises_only_arithmetic_inv _ e (get_mean_speed_raises self) H).
  - exact (raises_only_arithmetic_inv _ e (get_spent_calories_raises self Hc) H).
Qed.

Lemma computation_raises_arithmetic_witness :
  ZeroDivisionError = ZeroDivisionError \/ ZeroDivisionError = OverflowError.
Proof.
  apply (computation_raises_arithmetic
           (NewSportsWalking (PInt 9000) (PInt 1) (PInt 75) (PInt 0))
           ZeroDivisionError).
  right. right. split; [discriminate | vm_compute; reflexivity].
Defined.

(** X4.  Whenever the distance, the mean speed or the calories are
    returned they are [float]s, also when every number of the record is an
    [int]. *)
Theorem computation_returns_float (self : object) (v : pyval) :
  get_distance self = Ok v
  \/ get_mean_speed self = Ok v
  \/ get_spent_calories self = Ok v ->
  exists x, v = PFloat x.
Proof.
  assert (K : forall m : result pyval,
             Outcome.returns_float m -> m = Ok v -> exists x, v = PFloat x).
  { intros m Hm ->. simpl in Hm. destruct v as [n|x]; [discriminate Hm|].
    exists x. reflexivity. }
  intros [H | [H | H]].
  - exact (K _ (get_distance_returns_float self) H).
  - exact (K _ (get_mean_speed_returns_float self) H).
  - exact (K _ (get_spent_calories_returns_float self) H).
Qed.

Lemma computation_returns_float_witness :
  exists x, PFloat 1 = PFloat x.
Proof.
  apply (computation_returns_float
           (NewSwimming (PInt 720) (PInt 1) (PInt 80) (PInt 25) (PInt 40))
           (PFloat 1)).
  right. left. vm_compute. reflexivity.
Defined.

(** ** Zero duration *)

Lemma truediv_by_zero (m : result pyval) (d : pyval) :
  Outcome.returns_float m -> Outcome.raises_only Outcome.arithmetic m ->
  Outcome.is_zero d = true ->
  exists e, lift2 py_truediv m (Ok d) = Raise e
            /\ (e = ZeroDivisionError \/ e = OverflowError).
Proof.
  intros Hf Hr Hz. destruct m as [[n|x]|e]; simpl in Hf, Hr.
  - discriminate Hf.
  - exists ZeroDivisionError. split; [|left; reflexivity].
    destruct d as [n|y]; simpl in Hz.
    + apply Z.eqb_eq in Hz. subst n. vm_compute. reflexivity.
    + unfold lift2. cbn [bind py_truediv as_float]. rewrite Hz. reflexivity.
  - exists e. split; [reflexivity|].
    destruct e; try discriminate Hr; auto.
Qed.

Lemma zero_duration_speed (self : object) (d : pyval) :
  duration self = Ok d -> Outcome.is_zero d = true ->
  exists e, get_mean_speed self = Raise e
            /\ (e = ZeroDivisionError \/ e = OverflowError).
Proof.
  intros Hd Hz.
  pose proof (get_distance_returns_float self) as Df.
  pose proof (get_distance_raises self) as Dr.
  destruct self as [a d' w|a d' w|a d' w h|a d' w l n];
    cbn [duration] in Hd; injection Hd as ->.
  - exact (truediv_by_zero _ d Df Dr Hz).
  - exact (truediv_by_zero _ d Df Dr Hz).
  - exact (truediv_by_zero _ d Df Dr Hz).
  - rewrite get_mean_speed_Swimming. unfold Swimming_get_mean_speed.
    autorewrite with resolve. cbn [length_pool count_pool duration].
    apply truediv_by_zero; [| |exact Hz].
    + apply lift2_returns_float. intros. apply py_truediv_returns_float.
    + apply lift2_raises; [apply lift2_raises; try exact I| exact I |];
        intros; first [apply py_mul_arith | apply py_truediv_raises].
Qed.

(** X5.  A record whose duration is zero ([0], [0.0] or [-0.0]) never gets
    a mean speed: [get_mean_speed] raises [ZeroDivisionError] (or the
    [OverflowError] of an earlier conversion), and [main] prints nothing. *)
Theorem zero_duration_never_prints (self : object) (d : pyval) (stdout : list string) :
  duration self = Ok d -> Outcome.is_zero d = true ->
  (exists e, get_mean_speed self = Raise e
             /\ (e = ZeroDivisionError \/ e = OverflowError))
  /\ (exists e, main self stdout = Raise e
                /\ (e = ZeroDivisionError \/ e = OverflowError)).
Proof.
  intros Hd Hz.
  destruct (zero_duration_speed self d Hd Hz) as (e & He & Ha).
  split; [exists e; auto|].
  unfold main. rewrite show_training_info_inherited.
  unfold Training_show_training_info. rewrite Hd. cbn [bind].
  destruct (get_distance self) as [di|e'] eqn:Hdi.
  - cbn [bind]. rewrite He. exists e. auto.
  - exists e'. split; [reflexivity|].
    exact (raises_only_arithmetic_inv _ e' (get_distance_raises self) Hdi).
Qed.

Lemma zero_duration_never_prints_witness :
  (exists e, get_mean_speed (NewRunning (PInt 9000) (PFloat (-0)) (PInt 75)) = Raise e
             /\ (e = ZeroDivisionError \/ e = OverflowError))
  /\ (exists e, main (NewRunning (PInt 9000) (PFloat (-0)) (PInt 75)) [] = Raise e
                /\ (e = ZeroDivisionError \/ e = OverflowError)).
Proof.
  apply (zero_duration_never_prints
           (NewRunning (PInt 9000) (PFloat (-0)) (PInt 75)) (PFloat (-0)) []);
    reflexivity.
Defined.

(** ** The abstract base class *)

(** X6.  An instance of the base class [Training] never gets a summary:
    [main] always raises, with [NotImplementedError] as soon as its mean
    speed is computed (otherwise with the arithmetic exception that
    stopped the distance or the speed). *)
Theorem base_training_never_prints (a d w : pyval) (stdout : list string) :
  (exists e, main (NewTraining a d w) stdout = Raise e
             /\ (e = NotImplementedError
                 \/ e = ZeroDivisionError \/ e = OverflowError))
  /\ (forall sp, get_mean_speed (NewTraining a d w) = Ok sp ->
                 main (NewTraining a d w) stdout = Raise NotImplementedError).
Proof.
  set (self := NewTraining a d w).
  assert (E : main self stdout
              = (let! distance := get_distance self in
                 let! speed := get_mean_speed self in
                 Raise NotImplementedError)).
  { unfold main. rewrite show_training_info_inherited.
    unfold Training_show_training_info. cbn [duration self bind].
    destruct (get_distance self); [|reflexivity]. cbn [bind].
    destruct (get_mean_speed self); reflexivity. }
  assert (S : get_mean_speed self = lift2 py_truediv (get_distance self) (Ok d))
    by reflexivity.
  split.
  - rewrite E. destruct (get_distance self) as [di|e] eqn:Hdi; cbn [bind].
    + destruct (get_mean_speed self) as [sp|e] eqn:Hsp; cbn [bind].
      * exists NotImplementedError. auto.
      * exists e. split; [reflexivity|]. right.
        exact (raises_only_arithmetic_inv _ e (get_mean_speed_raises self) Hsp).
    + exists e. split; [reflexivity|]. right.
      exact (raises_only_arithmetic_inv _ e (get_distance_raises self) Hdi).
  - intros sp Hsp. rewrite E. rewrite S in Hsp.
    destruct (get_distance self) as [di|e]; [|discriminate Hsp].
    cbn [bind]. rewrite S, Hsp. reflexivity.
Qed.

Lemma base_training_never_prints_witness :
  main (NewTraining (PInt 9000) (PInt 1) (PInt 75)) [] = Raise NotImplementedError.
Proof.
  apply (proj2 (base_training_never_prints (PInt 9000) (PInt 1) (PInt 75) [])
           (PFloat 5.8499999999999996)).
  vm_compute. reflexivity.
Defined.

(** ** [read_package] *)

Lemma workout_types_known :
  workout_types !! "SWM" = Some Swimming
  /\ workout_types !! "RUN" = Some Running
  /\ workout_types !! "WLK" = Some SportsWalking.
Proof. split_conj; vm_compute; reflexivity. Qed.

(** The dictionary holds the three tags and nothing else. *)
Lemma workout_types_lookup (tag : string) :
  workout_types !! tag
  = if decide (tag = "SWM") then Some Swimming
    else if decide (tag = "RUN") then Some Running
    else if decide (tag = "WLK") then Some SportsWalking
    else None.
Proof.
  destruct workout_types_known as (Hs & Hr & Hw).
  repeat case_decide; subst; try assumption.
  apply workout_types_other; assumption.
Qed.

(** X7.  A recognised tag with the wrong number of arguments raises
    [TypeError] (the constructor's arity error), not the
    unsupported-workout-type [ValueError]. *)
Theorem read_package_arity (data : list pyval) :
  (length data <> 5%nat -> read_package "SWM" data = Raise TypeError)
  /\ (length data <> 3%nat -> read_package "RUN" data = Raise TypeError)
  /\ (length data <> 4%nat -> read_package "WLK" data = Raise TypeError).
Proof.
  destruct workout_types_known as (Hs & Hr & Hw).
  unfold read_package. rewrite Hs, Hr, Hw.
  split_conj; intros H;
    do 6 (destruct data as [|? data]; try reflexivity; try (contradiction H; reflexivity)).
Qed.

Lemma read_package_arity_witness :
  read_package "SWM" [PInt 720; PInt 1; PInt 80] = Raise TypeError
  /\ read_package "RUN" [] = Raise TypeError
  /\ read_package "WLK" [PInt 9000; PInt 1; PInt 75; PInt 180; PInt 0] = Raise TypeError.
Proof.
  split; [|split].
  - apply (proj1 (read_package_arity [PInt 720; PInt 1; PInt 80])). discriminate.
  - apply (proj1 (proj2 (read_package_arity []))). discriminate.
  - apply (proj2 (proj2 (read_package_arity
                           [PInt 9000; PInt 1; PInt 75; PInt 180; PInt 0]))).
    discriminate.
Defined.

Lemma construct_inv (c : class) (data : list pyval) (o : object) :
  construct c data = Ok o ->
  class_of o = c
  /\ match o with
     | NewTraining a d w | NewRunning a d w => data = [a; d; w]
     | NewSportsWalking a d w h => data = [a; d; w; h]
     | NewSwimming a d w l n => data = [a; d; w; l; n]
     end.
Proof.
  intros H.
  destruct c; repeat (destruct data as [|? data]; try discriminate H);
    injection H as <-; split; reflexivity.
Qed.

Lemma construct_not_ValueError (c : class) (data : list pyval) (msg : string) :
  construct c data <> Raise (ValueError msg).
Proof.
  destruct c; repeat (destruct data as [|? data]; try discriminate).
Qed.

(** X8.  [read_package] raises [ValueError] exactly for the tags outside
    the dispatch dictionary, whatever the arguments are. *)
Theorem read_package_ValueError_iff (tag : string) (data : list pyval) :
  (exists msg, read_package tag data = Raise (ValueError msg))
  <-> tag <> "SWM" /\ tag <> "RUN" /\ tag <> "WLK".
Proof.
  unfold read_package. rewrite workout_types_lookup. split.
  - intros [msg H].
    repeat case_decide; try (exfalso; exact (construct_not_ValueError _ _ _ H)).
    auto.
  - intros (H1 & H2 & H3). repeat case_decide; try contradiction.
    eexists. reflexivity.
Qed.

Lemma read_package_ValueError_iff_witness :
  exists msg, read_package "run" [PInt 9000; PInt 1; PInt 75] = Raise (ValueError msg).
Proof.
  apply (proj2 (read_package_ValueError_iff "run" [PInt 9000; PInt 1; PInt 75])).
  split_conj; discriminate.
Defined.

(** X9.  A record returned by [read_package] is of the class the tag
    names and holds the arguments in their order: "SWM" gives a Swimming
    record of exactly 5 arguments, "RUN" a Running record of 3, "WLK" a
    SportsWalking record of 4; an instance of the base class is never
    returned. *)
Theorem read_package_inv (tag : string) (data : list pyval) (o : object) :
  read_package tag data = Ok o ->
  (tag = "SWM" /\ exists a d w l n,
      data = [a; d; w; l; n] /\ o = NewSwimming a d w l n)
  \/ (tag = "RUN" /\ exists a d w, data = [a; d; w] /\ o = NewRunning a d w)
  \/ (tag = "WLK" /\ exists a d w h,
         data = [a; d; w; h] /\ o = NewSportsWalking a d w h).
Proof.
  unfold read_package. rewrite workout_types_lookup. intros H.
  repeat case_decide; try discriminate H;
    apply construct_inv in H as [Hc Hd];
    destruct o; try discriminate Hc; subst data.
  - left. split; [assumption|]. repeat eexists.
  - right. left. split; [assumption|]. repeat eexists.
  - right. right. split; [assumption|]. repeat eexists.
Qed.

Lemma read_package_inv_witness :
  ("WLK" = "SWM" /\ exists a d w l n,
      [PInt 9000; PInt 1; PInt 75; PInt 180] = [a; d; w; l; n]
      /\ NewSportsWalking (PInt 9000) (PInt 1) (PInt 75) (PInt 180)
         = NewSwimming a d w l n)
  \/ ("WLK" = "RUN" /\ exists a d w,
         [PInt 9000; PInt 1; PInt 75; PInt 180] = [a; d; w]
         /\ NewSportsWalking (PInt 9000) (PInt 1) (PInt 75) (PInt 180)
            = NewRunning a d w)
  \/ ("WLK" = "WLK" /\ exists a d w h,
         [PInt 9000; PInt 1; PInt 75; PInt 180] = [a; d; w; h]
         /\ NewSportsWalking (PInt 9000) (PInt 1) (PInt 75) (PInt 180)
            = NewSportsWalking a d w h).
Proof.
  apply (read_package_inv "WLK" [PInt 9000; PInt 1; PInt 75; PInt 180]
           (NewSportsWalking (PInt 9000) (PInt 1) (PInt 75) (PInt 180))).
  vm_compute. reflexivity.
Defined.

Lemma read_package_class (tag : string) (data : list pyval) (o : object) :
  read_package tag data = Ok o -> class_of o <> Training.
Proof.
  unfold read_package. rewrite workout_types_lookup. intros H.
  repeat case_decide; try discriminate H;
    apply construct_inv in H as [Hc _]; rewrite Hc; discriminate.
Qed.

(** ** [main]: when a line is printed *)

Lemma py_format_3f_float (x : float) : py_format_3f (PFloat x) = Ok (float_format_3f x).
Proof. reflexivity. Qed.

Lemma truediv_Ok_divisor (m : result pyval) (d v : pyval) :
  Outcome.returns_float m -> lift2 py_truediv m (Ok d) = Ok v ->
  exists y, as_float d = Ok y.
Proof.
  intros Hf H. destruct m as [[n|x]|e]; simpl in Hf; try discriminate.
  unfold lift2 in H. cbn [bind] in H.
  destruct d as [n|y]; [|exists y; reflexivity].
  cbn [py_truediv as_float bind] in H. cbn [as_float].
  destruct (float_of_int n) as [y|e]; [exists y; reflexivity | discriminate H].
Qed.

Lemma get_mean_speed_Ok_duration (self : object) (d sp : pyval) :
  duration self = Ok d -> get_mean_speed self = Ok sp ->
  exists y, as_float d = Ok y.
Proof.
  intros Hd Hsp.
  pose proof (get_distance_returns_float self) as Df.
  destruct self as [a d' w|a d' w|a d' w h|a d' w l n];
    cbn [duration] in Hd; injection Hd as ->.
  - exact (truediv_Ok_divisor _ d sp Df Hsp).
  - exact (truediv_Ok_divisor _ d sp Df Hsp).
  - exact (truediv_Ok_divisor _ d sp Df Hsp).
  - rewrite get_mean_speed_Swimming in Hsp. unfold Swimming_get_mean_speed in Hsp.
    cbn [duration] in Hsp.
    refine (truediv_Ok_divisor _ d sp _ Hsp).
    apply lift2_returns_float. intros. apply py_truediv_returns_float.
Qed.

(** [main] leaves what was printed before in place and adds one line. *)
Lemma main_appends (self : object) (stdout : list string) :
  main self stdout = (let! lines := main self [] in Ok (stdout ++ lines)).
Proof.
  unfold main. destruct (show_training_info self) as [info|e]; [|reflexivity].
  cbn [bind]. destruct (InfoMessage.get_message info); reflexivity.
Qed.

Lemma main_one_line (self : object) (stdout out : list string) :
  main self stdout = Ok out ->
  exists line, out = stdout ++ [line] /\ main self [] = Ok [line].
Proof.
  unfold main. destruct (show_training_info self) as [info|e]; [|discriminate].
  cbn [bind]. destruct (InfoMessage.get_message info) as [line|e]; [|discriminate].
  cbn [bind]. intros [= <-]. exists line. split; reflexivity.
Qed.

(** X10.  Formatting never fails on computed values: [main] prints a line
    exactly when the distance, the mean speed and the calories of the
    record are all computed, and then it appends that one line to what was
    printed before. *)
Theorem main_prints_iff (self : object) (stdout : list string) :
  ((exists out, main self stdout = Ok out)
   <-> (exists di sp ca,
           get_distance self = Ok di /\ get_mean_speed self = Ok sp
           /\ get_spent_calories self = Ok ca))
  /\ (forall out, main self stdout = Ok out ->
                  exists line, out = stdout ++ [line]).
Proof.
  split;
    [|intros out H; destruct (main_one_line self stdout out H) as (line & E & _);
      exists line; exact E].
  unfold main. rewrite show_training_info_inherited.
  unfold Training_show_training_info.
  destruct (duration self) as [d|e] eqn:Hd; [|destruct self; discriminate Hd].
  cbn [bind]. split.
  - intros [out H].
    destruct (get_distance self) as [di|?]; [|discriminate H].
    destruct (get_mean_speed self) as [sp|?]; [|discriminate H].
    destruct (get_spent_calories self) as [ca|?]; [|discriminate H].
    eauto 6.
  - intros (di & sp & ca & Hdi & Hsp & Hca).
    destruct (get_mean_speed_Ok_duration self d sp Hd Hsp) as [y Hy].
    pose proof (get_distance_returns_float self) as F1.
    pose proof (get_mean_speed_returns_float self) as F2.
    pose proof (get_spent_calories_returns_float self) as F3.
    rewrite Hdi in F1 |- *. rewrite Hsp in F2 |- *. rewrite Hca in F3 |- *.
    cbn [bind]. simpl in F1, F2, F3.
    destruct di as [?|di]; [discriminate F1|].
    destruct sp as [?|sp]; [discriminate F2|].
    destruct ca as [?|ca]; [discriminate F3|].
    unfold InfoMessage.get_message.
    cbn [InfoMessage.duration InfoMessage.distance InfoMessage.speed
         InfoMessage.calories InfoMessage.training_type].
    rewrite !py_format_3f_float. unfold py_format_3f. rewrite Hy.
    cbn [bind]. eexists. reflexivity.
Qed.

Lemma main_prints_iff_witness :
  exists out, main (NewRunning (PInt 9000) (PInt 1) (PInt (10 ^ 308))) [] = Ok out.
Proof.
  apply (proj2 (proj1 (main_prints_iff
                         (NewRunning (PInt 9000) (PInt 1) (PInt (10 ^ 308))) []))).
  exists (PFloat 5.8499999999999996), (PFloat 5.8499999999999996), (PFloat infinity).
  split_conj; vm_compute; reflexivity.
Defined.

Lemma main_raises (self : object) (stdout : list string) (e : exn) :
  class_of self <> Training -> main self stdout = Raise e ->
  e = ZeroDivisionError \/ e = OverflowError.
Proof.
  intros Hc. unfold main. rewrite show_training_info_inherited.
  unfold Training_show_training_info.
  destruct (duration self) as [d|?] eqn:Hd; [|destruct self; discriminate Hd].
  cbn [bind].
  destruct (get_distance self) as [di|e1] eqn:Hdi; cbn [bind];
    [|intros [= <-];
      exact (raises_only_arithmetic_inv _ e1 (get_distance_raises self) Hdi)].
  destruct (get_mean_speed self) as [sp|e1] eqn:Hsp; cbn [bind];
    [|intros [= <-];
      exact (raises_only_arithmetic_inv _ e1 (get_mean_speed_raises self) Hsp)].
  destruct (get_spent_calories self) as [ca|e1] eqn:Hca; cbn [bind];
    [|intros [= <-];
      exact (raises_only_arithmetic_inv _ e1 (get_spent_calories_raises self Hc) Hca)].
  destruct (InfoMessage.get_message _) as [line|e1] eqn:H; cbn [bind];
    [discriminate | intros [= <-]].
  right. unfold InfoMessage.get_message in H.
  cbn [InfoMessage.duration InfoMessage.distance InfoMessage.speed
       InfoMessage.calories InfoMessage.training_type] in H.
  assert (K : forall v (k : string -> result string) ,
             (forall s, k s = Raise e1 -> e1 = OverflowError) ->
             bind (py_format_3f v) k = Raise e1 -> e1 = OverflowError).
  { intros v k Hk. unfold py_format_3f.
    pose proof (as_float_raises v) as Hv.
    destruct (as_float v) as [x|e2]; cbn [bind].
    - apply Hk.
    - intros [= <-]. simpl in Hv. destruct e2; try discriminate Hv. reflexivity. }
  revert H. apply K. intros s1. apply K. intros s2. apply K. intros s3.
  apply K. intros s4. cbn [bind]. discriminate.
Qed.

(** X11.  On a record that [read_package] returned, [main] can only fail
    with [ZeroDivisionError] or [OverflowError]: dispatch never leads to
    the abstract [get_spent_calories] nor to a missing attribute. *)
Theorem dispatched_record_raises_arithmetic (tag : string) (data : list pyval)
  (o : object) (stdout : list string) (e : exn) :
  read_package tag data = Ok o -> main o stdout = Raise e ->
  e = ZeroDivisionError \/ e = OverflowError.
Proof.
  intros Hr Hm.
  exact (main_raises o stdout e (read_package_class tag data o Hr) Hm).
Qed.

Lemma dispatched_record_raises_arithmetic_witness :
  OverflowError = ZeroDivisionError \/ OverflowError = OverflowError.
Proof.
  apply (dispatched_record_raises_arithmetic "RUN"
           [PInt 9000; PInt (10 ^ 400); PInt 75]
           (NewRunning (PInt 9000) (PInt (10 ^ 400)) (PInt 75)) [] OverflowError);
    vm_compute; reflexivity.
Defined.

(** ** The loop of the script *)

Lemma run_app (ps1 ps2 : list (string * list pyval)) (stdout : list string) :
  run (ps1 ++ ps2) stdout = (let! out := run ps1 stdout in run ps2 out).
Proof.
  revert stdout. induction ps1 as [|[tag data] ps1 IH]; intros stdout.
  - reflexivity.
  - cbn [app run].
    destruct (read_package tag data) as [o|e]; [|reflexivity]. cbn [bind].
    destruct (main o stdout) as [out|e]; [|reflexivity]. cbn [bind]. apply IH.
Qed.

(** What was printed before does not influence a run. *)
Lemma run_frame (ps : list (string * list pyval)) (stdout : list string) :
  run ps stdout = (let! lines := run ps [] in Ok (stdout ++ lines)).
Proof.
  revert stdout. induction ps as [|[tag data] ps IH]; intros stdout.
  - cbn [run bind]. rewrite app_nil_r. reflexivity.
  - cbn [run].
    destruct (read_package tag data) as [o|e]; [|reflexivity]. cbn [bind].
    rewrite (main_appends o stdout).
    destruct (main o []) as [l1|e]; [|reflexivity]. cbn [bind].
    rewrite (IH (stdout ++ l1)), (IH l1).
    destruct (run ps []) as [l|e]; [|reflexivity]. cbn [bind].
    rewrite app_assoc. reflexivity.
Qed.

Lemma run_length (ps : list (string * list pyval)) (stdout out : list string) :
  run ps stdout = Ok out -> length out = (length stdout + length ps)%nat.
Proof.
  revert stdout out. induction ps as [|[tag data] ps IH]; intros stdout out H.
  - injection H as <-. cbn [length]. lia.
  - cbn [run] in H.
    destruct (read_package tag data) as [o|e]; [|discriminate H].
    cbn [bind] in H.
    destruct (main o stdout) as [out1|e] eqn:Hm; [|discriminate H].
    cbn [bind] in H.
    destruct (main_one_line o stdout out1 Hm) as (line & -> & _).
    rewrite (IH _ _ H), length_app. cbn [length]. lia.
Qed.

(** X12.  A run that ends normally has printed one line per package after
    what was printed before, and these lines are the ones the same
    packages print on an empty output. *)
Theorem run_output (ps : list (string * list pyval)) (stdout out : list string) :
  run ps stdout = Ok out ->
  exists lines,
    out = stdout ++ lines
    /\ length lines = length ps
    /\ run ps [] = Ok lines.
Proof.
  intros H. rewrite run_frame in H.
  destruct (run ps []) as [lines|e] eqn:H0; [|discriminate H].
  injection H as <-. exists lines. split; [reflexivity|]. split; [|reflexivity].
  apply run_length in H0. cbn [length] in H0. lia.
Qed.

Lemma run_output_witness :
  exists lines,
    [ "Тип тренировки: Running; Длительность: 1.000 ч.; Дистанция: 9.750 км; Ср. скорость: 9.750 км/ч; Потрачено ккал: 699.750." ]
    = [] ++ lines
    /\ length lines = length [(RUN, [PInt 15000; PInt 1; PInt 75])]
    /\ run [(RUN, [PInt 15000; PInt 1; PInt 75])] [] = Ok lines.
Proof.
  apply (run_output [(RUN, [PInt 15000; PInt 1; PInt 75])] []).
  vm_compute. reflexivity.
Defined.

(** X13.  The first package that fails ends the run with its exception:
    the packages after it are not looked at, and nothing is returned of
    the lines printed so far. *)
Theorem run_fail_fast (ps1 ps2 : list (string * list pyval)) (tag : string)
  (data : list pyval) (stdout out1 : list string) (e : exn) :
  run ps1 stdout = Ok out1 ->
  (let! training := read_package tag data in main training out1) = Raise e ->
  run (ps1 ++ (tag, data) :: ps2) stdout = Raise e.
Proof.
  intros H1 H2. rewrite run_app, H1. cbn [bind run].
  destruct (read_package tag data) as [o|e']; cbn [bind] in H2 |- *.
  - rewrite H2. reflexivity.
  - exact H2.
Qed.

Lemma run_fail_fast_witness :
  run ([(RUN, [PInt 15000; PInt 1; PInt 75])]
         ++ ("XYZ", []) :: [(WLK, [PInt 9000; PInt 1; PInt 75; PInt 180])]) []
  = Raise (ValueError "Тип тренировки не предусмотрен").
Proof.
  apply (run_fail_fast [(RUN, [PInt 15000; PInt 1; PInt 75])]
           [(WLK, [PInt 9000; PInt 1; PInt 75; PInt 180])] "XYZ" [] []
           [ "Тип тренировки: Running; Длительность: 1.000 ч.; Дистанция: 9.750 км; Ср. скорость: 9.750 км/ч; Потрачено ккал: 699.750." ]);
    vm_compute; reflexivity.
Defined.

Lemma read_package_raises (tag : string) (data : list pyval) (e : exn) :
  read_package tag data = Raise e -> Outcome.script_exception e = true.
Proof.
  unfold read_package. destruct (workout_types !! tag) as [c|].
  - destruct c; do 6 (try (destruct data as [|? data]));
      cbn [construct]; intros H;
      first [discriminate H | injection H as <-; reflexivity].
  - intros [= <-]. reflexivity.
Qed.

(** X14.  A run of the script can only end with the [ValueError] of an
    unknown tag, the [TypeError] of a wrong number of arguments, a
    [ZeroDivisionError] or an [OverflowError]; it never ends with
    [NotImplementedError] or [AttributeError]. *)
Theorem run_raises (ps : list (string * list pyval)) (stdout : list string) (e : exn) :
  run ps stdout = Raise e ->
  (exists msg, e = ValueError msg) \/ e = TypeError
  \/ e = ZeroDivisionError \/ e = OverflowError.
Proof.
  intros H. assert (S : Outcome.script_exception e = true).
  { revert stdout H. induction ps as [|[tag data] ps IH]; intros stdout H.
    - discriminate H.
    - cbn [run] in H.
      destruct (read_package tag data) as [o|e1] eqn:Hr; cbn [bind] in H.
      + destruct (main o stdout) as [out|e1] eqn:Hm; cbn [bind] in H.
        * exact (IH _ H).
        * injection H as <-.
          destruct (main_raises o stdout e1 (read_package_class _ _ _ Hr) Hm)
            as [-> | ->]; reflexivity.
      + injection H as <-. exact (read_package_raises _ _ _ Hr). }
  destruct e; try discriminate S; eauto.
Qed.

Lemma run_raises_witness :
  (exists msg, TypeError = ValueError msg) \/ TypeError = TypeError
  \/ TypeError = ZeroDivisionError \/ TypeError = OverflowError.
Proof.
  apply (run_raises [(RUN, [PInt 15000; PInt 1; PInt 75]); (SWM, [PInt 720])] []).
  vm_compute. reflexivity.
Defined.

(** ** What a result does not depend on *)

(** X15.  The calories of a Swimming record do not depend on its action
    count: two Swimming records that agree on duration, weight, pool
    length and pool count burn the same calories (or fail alike), whatever
    their stroke counts. *)
Theorem swimming_calories_independent_of_action (self1 self2 : object) :
  class_of self1 = Swimming -> class_of self2 = Swimming ->
  duration self1 = duration self2 -> weight self1 = weight self2 ->
  length_pool self1 = length_pool self2 ->
  count_pool self1 = count_pool self2 ->
  get_spent_calories self1 = get_spent_calories self2.
Proof.
  intros K1 K2 Hd Hw Hl Hn.
  destruct self1 as [| | |a1 d1 w1 l1 n1]; try discriminate K1.
  destruct self2 as [| | |a2 d2 w2 l2 n2]; try discriminate K2.
  cbn [length_pool count_pool duration weight] in Hd, Hw, Hl, Hn.
  injection Hd as ->. injection Hw as ->. injection Hl as ->. injection Hn as ->.
  rewrite !get_spent_calories_Swimming. unfold Swimming_get_spent_calories.
  rewrite !get_mean_speed_Swimming. reflexivity.
Qed.

Lemma swimming_calories_independent_of_action_witness :
  get_spent_calories (NewSwimming (PInt 720) (PInt 1) (PInt 80) (PInt 25) (PInt 40))
  = get_spent_calories (NewSwimming (PInt 0) (PInt 1) (PInt 80) (PInt 25) (PInt 40)).
Proof.
  apply (swimming_calories_independent_of_action
           (NewSwimming (PInt 720) (PInt 1) (PInt 80) (PInt 25) (PInt 40))
           (NewSwimming (PInt 0) (PInt 1) (PInt 80) (PInt 25) (PInt 40)));
    reflexivity.
Defined.

(** X16.  The distance depends on the action count and on whether the
    record is a Swimming one, and on nothing else: duration, weight,
    height and pool do not enter it. *)
Theorem distance_depends_on_action_only (self1 self2 : object) :
  action self1 = action self2 ->
  (class_of self1 = Swimming <-> class_of self2 = Swimming) ->
  get_distance self1 = get_distance self2.
Proof.
  intros Ha Hc.
  destruct (action self1) as [a|?] eqn:H1; [|destruct self1; discriminate H1].
  symmetry in Ha.
  rewrite (get_distance_formula self1 a H1), (get_distance_formula self2 a Ha).
  f_equal.
  destruct self1, self2; try reflexivity; cbn [class_of] in Hc;
    destruct Hc as [Hc1 Hc2];
    first [specialize (Hc1 eq_refl); discriminate Hc1
          | specialize (Hc2 eq_refl); discriminate Hc2].
Qed.

Lemma distance_depends_on_action_only_witness :
  get_distance (NewRunning (PInt 9000) (PInt 1) (PInt 75))
  = get_distance (NewSportsWalking (PInt 9000) (PFloat 2.5) (PInt 60) (PInt 180)).
Proof.
  apply (distance_depends_on_action_only
           (NewRunning (PInt 9000) (PInt 1) (PInt 75))
           (NewSportsWalking (PInt 9000) (PFloat 2.5) (PInt 60) (PInt 180)));
    [reflexivity | split; discriminate].
Defined.

(** ** Zero height *)

Lemma lift2_Ok_inv (op : pyval -> pyval -> result pyval) (a b : result pyval)
  (v : pyval) :
  lift2 op a b = Ok v -> exists x y, a = Ok x /\ b = Ok y /\ op x y = Ok v.
Proof.
  unfold lift2. destruct a as [x|?]; [|discriminate].
  destruct b as [y|?]; [|discriminate]. cbn [bind]. eauto.
Qed.

Lemma py_pow_float (v : pyval) (n : N) (r : pyval) :
  Outcome.is_float v = true -> py_pow v n = Ok r -> Outcome.is_float r = true.
Proof.
  destruct v as [?|x]; [discriminate|]. intros _. unfold py_pow.
  destruct (float_of_int _); [|discriminate]. cbn [bind].
  destruct (float_pow _ _); [|discriminate]. cbn [bind].
  intros [= <-]. reflexivity.
Qed.

Lemma py_floordiv_float_zero (x : float) (h : pyval) :
  Outcome.is_zero h = true -> py_floordiv (PFloat x) h = Raise ZeroDivisionError.
Proof.
  destruct h as [n|y]; cbn [Outcome.is_zero]; intros Hz.
  - apply Z.eqb_eq in Hz. subst n. vm_compute. reflexivity.
  - cbn [py_floordiv as_float bind]. rewrite Hz. reflexivity.
Qed.

(** X17.  A SportsWalking record whose height is zero never gets its
    calories: [get_spent_calories] raises [ZeroDivisionError] (or the
    exception of an earlier step), so the floor division by the height is
    not guarded either. *)
Theorem zero_height_no_calories (a d w h : pyval) :
  Outcome.is_zero h = true ->
  exists e, get_spent_calories (NewSportsWalking a d w h) = Raise e
            /\ (e = ZeroDivisionError \/ e = OverflowError).
Proof.
  intros Hz. set (self := NewSportsWalking a d w h).
  pose proof (get_spent_calories_raises self ltac:(discriminate)) as Hr.
  destruct (get_spent_calories self) as [v|e] eqn:Hv.
  - exfalso. unfold self in Hv. rewrite get_spent_calories_SportsWalking in Hv.
    unfold SportsWalking_get_spent_calories in Hv. fold self in Hv.
    apply lift2_Ok_inv in Hv as (v1 & _ & Hv & _).
    apply lift2_Ok_inv in Hv as (v2 & _ & Hv & _).
    apply lift2_Ok_inv in Hv as (_ & v3 & _ & Hv & _).
    apply lift2_Ok_inv in Hv as (v4 & _ & Hv & _).
    apply lift2_Ok_inv in Hv as (v5 & _ & Hv & _).
    apply lift2_Ok_inv in Hv as (sq & h' & Hsq & Hh & Hv).
    cbn [height self] in Hh. injection Hh as <-.
    unfold lift_pow in Hsq.
    pose proof (get_mean_speed_returns_float self) as Hf.
    destruct (get_mean_speed self) as [sp|?]; [|discriminate Hsq].
    cbn [bind] in Hsq. simpl in Hf.
    destruct (WLK_COEFF_CAL_2 self) as [k|?]; [|discriminate Hsq].
    cbn [bind] in Hsq. pose proof (py_pow_float sp k sq Hf Hsq) as Hq.
    destruct sq as [?|x]; [discriminate Hq|].
    rewrite (py_floordiv_float_zero x h Hz) in Hv. discriminate Hv.
  - exists e. split; [reflexivity|]. simpl in Hr.
    destruct e; try discriminate Hr; auto.
Qed.

Lemma zero_height_no_calories_witness :
  exists e, get_spent_calories (NewSportsWalking (PInt 9000) (PInt 1) (PInt 75) (PInt 0))
            = Raise e
            /\ (e = ZeroDivisionError \/ e = OverflowError).
Proof.
  apply (zero_height_no_calories (PInt 9000) (PInt 1) (PInt 75) (PInt 0)).
  reflexivity.
Defined.

(** ** Rounding of the printed numbers *)

(** X18.  A finite non-zero number is printed as the thousandths nearest
    to its exact binary value: exactly when it is an integer multiple of a
    power of two with a non-negative exponent, and within half a
    thousandth otherwise. *)
Theorem format_3f_nearest_thousandth (x : float) (s : bool) (m : positive) (e : Z) :
  Prim2SF x = S754_finite s m e ->
  exists q,
    float_format_3f x = fixed3 s q
    /\ (0 <= e -> q = Zpos m * 1000 * 2 ^ e)
    /\ (e < 0 -> 2 * Z.abs (q * 2 ^ (- e) - Zpos m * 1000) <= 2 ^ (- e)).
Proof.
  intros H. exists (round_half_even_scaled m e).
  unfold float_format_3f. rewrite H. split; [reflexivity|].
  apply round_half_even_scaled_nearest.
Qed.

Lemma format_3f_nearest_thousandth_witness :
  exists q,
    float_format_3f 5.8499999999999996 = fixed3 false q
    /\ (0 <= -50 -> q = 6586514455029350 * 1000 * 2 ^ (-50))
    /\ (-50 < 0 -> 2 * Z.abs (q * 2 ^ (- (-50)) - 6586514455029350 * 1000)
                   <= 2 ^ (- (-50))).
Proof.
  apply (format_3f_nearest_thousandth 5.8499999999999996 false 6586514455029350 (-50)).
  vm_compute. reflexivity.
Defined.
